(** * vm-manager: a shallow embedding of [src/index.js]

    The program is a single commander action that validates its two
    arguments, loads [~/vvm.config.json] into the global [VMS], and dispatches
    to [startVM], [stopVM], [mountVM] and [unmountVM], which shell out through
    [child_process.exec].

    Modelling choices.
    - JavaScript values are the inductive [value]; objects are finite maps
      from property names to values ([gmap string value]), so that own
      properties ([_.has]) are exactly the keys of the map.  Numbers are the
      integer-valued ones (ports, seconds), printed in decimal; fractional
      numbers, and integers too large for a double to hold exactly, are
      outside the model.  The program never computes with a number of the
      configuration: it prints it, or hands it to [setTimeout].
    - The record [vm = VMS[vmName]] is a reference into the configuration.
      It is modelled as the property name under which the record is stored,
      and every read and write of [vm] goes through the [VMS] component of
      the state, so a write to [vm] is a write to the loaded configuration.
    - The outside world (environment variables, the file system, the
      outcome of child processes) is a record [world]; what the program does
      to it is recorded, in order, in the [trace] of the state.
    - Each [exec] or [setTimeout] call is the last statement of the function
      that makes it, so running the callback right after recording the call
      keeps the order of all observable events. *)

From stdpp Require Import base gmap strings list pretty.
From Stdlib Require Import ZArith Ascii.

#[local] Set Warnings "-register-all".
#[local] Open Scope string_scope.
#[local] Open Scope list_scope.
#[local] Open Scope Z_scope.

(** ** Values *)

Inductive value :=
| VUndef
| VNull
| VBool (b : bool)
| VNum (n : Z)
| VStr (s : string)
| VArr (l : list value)
| VObj (m : gmap string value).

(** A string that may be [undefined]: an optional command-line argument, an
    environment variable. *)
Definition ostring := option string.

(** [String(x)] for a string or [undefined]. *)
Definition ostr (x : ostring) : string := default "undefined" x.

(** Truthiness of a string or [undefined]. *)
Definition otruthy (x : ostring) : bool :=
  match x with
  | Some s => negb (bool_decide (s = ""))
  | None => false
  end.

(** Truthiness of a value, as tested by [!VMS]. *)
Definition truthy (v : value) : bool :=
  match v with
  | VUndef | VNull => false
  | VBool b => b
  | VNum n => negb (n =? 0)%Z
  | VStr s => negb (bool_decide (s = ""))
  | VArr _ | VObj _ => true
  end.

(** [String(v)], which is what chalk applies to its argument.  An array is
    joined with commas, [null] and [undefined] elements giving the empty
    string. *)
Fixpoint js_String (v : value) : string :=
  match v with
  | VUndef => "undefined"
  | VNull => "null"
  | VBool true => "true"
  | VBool false => "false"
  | VNum n => pretty n
  | VStr s => s
  | VArr l =>
      String.concat ","
        (map (fun x => match x with
                       | VUndef | VNull => ""
                       | _ => js_String x
                       end) l)
  | VObj _ => "[object Object]"
  end.

(** The index an array (or string) of length [len] stores under the property
    name [key]: [key] has to be the canonical decimal form of the index. *)
Fixpoint array_index_from (key : string) (i : nat) (len : nat) : option nat :=
  match len with
  | O => None
  | S len' =>
      if bool_decide (pretty i = key) then Some i
      else array_index_from key (S i) len'
  end.

Definition array_index (key : string) (len : nat) : option nat :=
  array_index_from key 0%nat len.

(** The character of [s] at position [i], as a one-character string. *)
Definition char_at (s : string) (i : nat) : option string :=
  match String.get i s with
  | Some c => Some (String c "")
  | None => None
  end.

(** [_.has(obj, key)] of underscore:
    [obj != null && hasOwnProperty.call(obj, key)]. *)
Definition has (obj : value) (key : string) : bool :=
  match obj with
  | VUndef | VNull => false
  | VBool _ | VNum _ => false
  | VStr s =>
      bool_decide (key = "length")
      || bool_decide (is_Some (array_index key (String.length s)))
  | VArr l =>
      bool_decide (key = "length")
      || bool_decide (is_Some (array_index key (length l)))
  | VObj m => bool_decide (is_Some (m !! key))
  end.

(** [obj[key]] for an own property; [undefined] otherwise.  The program
    reads a property only after [_.has] found it, or after writing it. *)
Definition get (obj : value) (key : string) : value :=
  match obj with
  | VUndef | VNull | VBool _ | VNum _ => VUndef
  | VStr s =>
      if bool_decide (key = "length") then VNum (Z.of_nat (String.length s))
      else match array_index key (String.length s) with
           | Some i => from_option VStr VUndef (char_at s i)
           | None => VUndef
           end
  | VArr l =>
      if bool_decide (key = "length") then VNum (Z.of_nat (length l))
      else match array_index key (length l) with
           | Some i => default VUndef (l !! i)
           | None => VUndef
           end
  | VObj m => default VUndef (m !! key)
  end.

(** [obj[key] = v].  On an object the property is created or overwritten; on
    an array an element in range is overwritten; on a primitive the
    assignment has no effect (the script is not in strict mode).  The program
    assigns only to a record that passed [_.has(vm, 'name')], which is an
    object, stored in a configuration that is an object or an array. *)
Definition set (obj : value) (key : string) (v : value) : value :=
  match obj with
  | VObj m => VObj (<[key := v]> m)
  | VArr l =>
      match array_index key (length l) with
      | Some i => VArr (<[i := v]> l)
      | None => obj
      end
  | _ => obj
  end.

(** ** Terminal output *)

Inductive style := gray | red | green | bold | magenta | underline.

(** A piece of text under the chalk styles applied to it, outermost first. *)
Definition segment : Type := list style * string.

(** A string built by concatenating styled pieces. *)
Definition text := list segment.

Definition chalk (st : list style) (s : string) : text := [(st, s)].

(** ** The outside world *)

(** [error.code] of a failed child process: the exit code, the name of a
    system error when the process could not be spawned, or [null] when it
    was killed by a signal. *)
Inductive exit_code :=
| ExitCode (n : Z)
| ErrorName
| NoCode.

Record exec_error := { code : exit_code }.

(** The three arguments [exec] passes to its callback; [None] is [null]. *)
Record exec_result := {
  error : option exec_error;
  stdout : option string;
  stderr : option string
}.

(** What the program does to the outside world, in order.
    [SetTimeout delay scale] is [setTimeout(fn, delay * scale)]: the two
    factors of the product are recorded as they are. *)
Inductive event :=
| FileExists (path : string)
| ReadFileSync (path : string)
| ConsoleLog (t : text)
| ConsoleError (t : text)
| Exec (cmd : string)
| SetTimeout (delay : value) (scale : Z).

Record world := {
  HOME : ostring;
  USERPROFILE : ostring;
  (** [fileExists(path)] *)
  file_exists : string -> bool;
  (** [jsonFile.readFileSync(path, {throws: false})]: the parsed contents,
      [null] when they do not parse *)
  read_json : string -> value;
  (** the outcome of a command, given everything that happened before it *)
  child_process : list event -> string -> exec_result
}.

(** The milliseconds of [delay * scale] when [delay] is a number. *)
Definition timeout_ms (e : event) : option Z :=
  match e with
  | SetTimeout (VNum n) scale => Some (n * scale)
  | _ => None
  end.

(** The commands a trace has run. *)
Definition commands (t : list event) : list string :=
  omap (fun e => match e with Exec cmd => Some cmd | _ => None end) t.

(** ** State *)

Record state := {
  VMS : value;          (* Config is loaded into this variable *)
  trace : list event
}.

(** A statement, or a function called for its effects. *)
Definition proc := state -> state.

Definition skip : proc := fun s => s.

Definition seq (p q : proc) : proc := fun s => q (p s).

Declare Scope proc_scope.
Delimit Scope proc_scope with proc.
Bind Scope proc_scope with proc.
Notation "p ;; q" := (seq p q)
  (at level 100, q at level 200, right associativity) : proc_scope.
#[local] Open Scope proc_scope.

Definition emit (e : event) : proc :=
  fun s => {| VMS := VMS s; trace := trace s ++ [e] |}.

Definition console_log (t : text) : proc := emit (ConsoleLog t).

Definition console_error (t : text) : proc := emit (ConsoleError t).

(** A reference to a record of the configuration: the record is
    [VMS[vmName]], and the reference is [vmName] as a property name. *)
Definition ref := string.

Definition deref (s : state) (vm : ref) : value := get (VMS s) vm.

(** [vm[key]] *)
Definition vm_get (s : state) (vm : ref) (key : string) : value :=
  get (deref s vm) key.

(** [_.has(vm, key)] *)
Definition vm_has (s : state) (vm : ref) (key : string) : bool :=
  has (deref s vm) key.

(** [vm[key] = v]: the record is updated where it lives, in [VMS]. *)
Definition vm_set (vm : ref) (key : string) (v : value) : proc :=
  fun s => {| VMS := set (VMS s) vm (set (deref s vm) key v);
              trace := trace s |}.

(** ** The program *)

Definition CMD_START_VM := "vboxmanage startvm %s --type headless".
Definition CMD_STOP_VM := "vboxmanage controlvm %s poweroff".
Definition CMD_MOUNT_VM := "sshfs -p %d %s@%s:%s %s".
Definition CMD_UNMOUNT_VM := "umount -f %s".
Definition MOUNT_DELAY := VNum 10. (* Default 10 secs *)

(** [error !== null && error['code'] == 1] *)
Definition exit_code_1 (r : exec_result) : bool :=
  match error r with
  | Some e =>
      match code e with
      | ExitCode n => (n =? 1)%Z
      | ErrorName | NoCode => false
      end
  | None => false
  end.

(** [makeErrorMsg(error, val)] *)
Definition makeErrorMsg (error : string) (val : ostring) : text :=
  chalk [underline; red] "ERROR"
  ++ chalk [red] (": " +:+ error)
  ++ (if otruthy val then chalk [magenta] (" " +:+ ostr val) else []).

(** [isMountableVM(vm)] *)
Definition isMountableVM (vm : value) : bool :=
  has vm "username" && has vm "mount_point_host".

(** ** Example data *)

(** The configuration of the example:
    [{"dev": {"name": "dev-vm", "username": "alice",
              "mount_point_host": "/mnt/dev"}}]. *)
Definition dev_record : gmap string value :=
  {[ "name" := VStr "dev-vm";
     "username" := VStr "alice";
     "mount_point_host" := VStr "/mnt/dev" ]}.

Definition dev_config : value := VObj {[ "dev" := VObj dev_record ]}.

(** A record that cannot be mounted: [{"box": {"name": "box-vm"}}]. *)
Definition box_record : gmap string value := {[ "name" := VStr "box-vm" ]}.

Definition box_config : value := VObj {[ "box" := VObj box_record ]}.

(** A record with every mount parameter configured. *)
Definition lab_record : gmap string value :=
  {[ "name" := VStr "lab-vm";
     "username" := VStr "bob";
     "mount_point_host" := VStr "/mnt/lab";
     "ssh_port" := VNum 2222;
     "hostname" := VStr "10.0.0.5";
     "mount_point_remote" := VStr "/srv/";
     "mount_delay" := VNum 3 ]}.

Definition lab_config : value := VObj {[ "lab" := VObj lab_record ]}.

(** A record with the mount parameters and no [name]. *)
Definition nameless_record : gmap string value :=
  {[ "username" := VStr "alice"; "mount_point_host" := VStr "/mnt/dev" ]}.

Definition nameless_config : value := VObj {[ "dev" := VObj nameless_record ]}.

(** A configuration that is an array: [[{"name": "dev-vm", ...}]]. *)
Definition array_config : value := VArr [VObj dev_record].

(** A command that succeeds and one that exits with code 1. *)
Definition exit_ok : exec_result :=
  {| error := None; stdout := Some ""; stderr := Some "" |}.

Definition exit_1 : exec_result :=
  {| error := Some {| code := ExitCode 1 |};
     stdout := Some ""; stderr := Some "no such machine" |}.

(** A world with the home directory [/home/alice], where the configuration
    file exists or not, parses to [config], and every command ends as
    [outcome] says. *)
Definition example_world (present : bool) (config : value)
    (outcome : string -> exec_result) : world :=
  {| HOME := Some "/home/alice";
     USERPROFILE := None;
     file_exists := fun _ => present;
     read_json := fun _ => config;
     child_process := fun _ cmd => outcome cmd |}.

(** The parameters of [util.format] used in the examples: [%s] of an array
    or an object is [String(x)], as in Node before version 12.  The examples
    never give [%d] anything but a number, so its rendering of other values
    is not exercised; the text below is a placeholder and not what
    [Number(x)] would give. *)
Definition legacy_inspect_s : value -> string := js_String.
Definition legacy_number_text : value -> string := fun _ => "NaN".

Section Program.

(** [util.format] renders a [%s] argument that is an array or an object,
    and a [%d] argument that is not a number, in ways that depend on the
    version of Node; both renderings are parameters. *)
Variable inspect_s : value -> string.
Variable number_text : value -> string.

Variable w : world.

Definition format_s (v : value) : string :=
  match v with
  | VArr _ | VObj _ => inspect_s v
  | _ => js_String v
  end.

(** [%d] of a number: its decimal digits, which is what Node prints for an
    integer below 1e21 in magnitude (above, Node switches to exponent
    notation; the model does not). *)
Definition format_d (v : value) : string :=
  match v with
  | VNum n => pretty n
  | _ => number_text v
  end.

(** [util.format(f, ...args)] for the placeholders the program uses.  A
    placeholder with no argument left is copied as it is.  Every call of
    the program passes as many arguments as its template has
    placeholders. *)
Fixpoint format (f : string) (args : list value) : string :=
  match f with
  | EmptyString => ""
  | String c f1 =>
      match f1 with
      | String c' f2 =>
          if bool_decide (c = "%"%char) then
            if bool_decide (c' = "s"%char) then
              match args with
              | a :: args' => format_s a +:+ format f2 args'
              | [] => String c (format f1 args)
              end
            else if bool_decide (c' = "d"%char) then
              match args with
              | a :: args' => format_d a +:+ format f2 args'
              | [] => String c (format f1 args)
              end
            else if bool_decide (c' = "%"%char) then
              String c (format f2 args)
            else String c (format f1 args)
          else String c (format f1 args)
      | EmptyString => String c ""
      end
  end.

(** [exec(cmd, callback)] *)
Definition exec (cmd : string) (callback : exec_result -> proc) : proc :=
  fun s => callback (child_process w (trace s) cmd) (emit (Exec cmd) s).

(** [setTimeout(fn, delay * scale)] *)
Definition setTimeout (fn : proc) (delay : value) (scale : Z) : proc :=
  emit (SetTimeout delay scale) ;; fn.

(** [if (callback && _.isFunction(callback)) callback()] *)
Definition call (callback : option proc) : proc :=
  match callback with
  | Some f => f
  | None => skip
  end.

(** [if (out !== null) console.log(chalk.<st>(out))] *)
Definition log_stream (st : style) (out : option string) : proc :=
  match out with
  | Some x => console_log (chalk [st] x)
  | None => skip
  end.

Definition getUserHome : ostring :=
  if otruthy (HOME w) then HOME w else USERPROFILE w.

Definition configFilePath : string :=
  ostr getUserHome +:+ "/vvm.config.json".

(** The function [startVM] passes to [exec]. *)
Definition startVM_callback (callback : option proc)
    (r : exec_result) : proc :=
  log_stream gray (stdout r) ;;
  log_stream red (stderr r) ;;
  if exit_code_1 r then
    console_error (makeErrorMsg "Failed to start VM" None)
  else
    (console_log (chalk [green] "Yo! VM is up and running.") ;;
     call callback).

Definition startVM (vm : ref) (callback : option proc) : proc :=
  fun s =>
    let cmd := format CMD_START_VM [vm_get s vm "name"] in
    exec cmd (startVM_callback callback) s.

(** The function [stopVM] passes to [exec]. *)
Definition stopVM_callback (r : exec_result) : proc :=
  if exit_code_1 r then
    (log_stream red (stderr r) ;;
     console_error (makeErrorMsg "Failed to stop VM" None))
  else
    (* The poweroff progress is also returned in stderr *)
    (log_stream gray (stderr r) ;;
     console_log (chalk [green] "Bye!")).

Definition stopVM (vm : ref) : proc :=
  fun s =>
    let cmd := format CMD_STOP_VM [vm_get s vm "name"] in
    (console_log (chalk [gray] "Stopping VM...") ;;
     exec cmd stopVM_callback) s.

(** The function [mountVM] passes to [exec]. *)
Definition mountVM_callback (vm : ref) (r : exec_result) : proc :=
  (* sshfs never returns anything on stdout *)
  log_stream red (stderr r) ;;
  if exit_code_1 r then
    console_error (makeErrorMsg "Failed to mount VM" None)
  else
    fun s =>
      console_log
        (chalk [gray] "VM mounted at "
         ++ chalk [bold] (js_String (vm_get s vm "mount_point_host"))) s.

(** [if (!_.has(vm, key)) { vm[key] = v; }], with [v] an expression over
    the current state. *)
Definition set_default (vm : ref) (key : string) (v : state -> value) : proc :=
  fun s => if negb (vm_has s vm key) then vm_set vm key (v s) s else s.

(** The three assignments at the head of [mountVM]. *)
Definition mountVM_defaults (vm : ref) : proc :=
  (* Set 22 as the default remote ssh port *)
  set_default vm "ssh_port" (fun _ => VNum 22) ;;
  (* Set localhost as the default remote hostname *)
  set_default vm "hostname" (fun _ => VStr "localhost") ;;
  (* Set remote home dir as the default remote mount point *)
  set_default vm "mount_point_remote"
    (fun s => VStr (format "/home/%s/" [vm_get s vm "username"])).

Definition mountVM (vm : ref) : proc :=
  mountVM_defaults vm ;;
  fun s =>
    let cmd := format CMD_MOUNT_VM
                 [vm_get s vm "ssh_port";
                  vm_get s vm "username";
                  vm_get s vm "hostname";
                  vm_get s vm "mount_point_remote";
                  vm_get s vm "mount_point_host"] in
    (console_log (chalk [gray] "Mounting VM...") ;;
     let delay := if vm_has s vm "mount_delay"
                  then vm_get s vm "mount_delay" else MOUNT_DELAY in (* In seconds *)
     setTimeout (exec cmd (mountVM_callback vm)) delay 1000) s.

(** The function [unmountVM] passes to [exec]. *)
Definition unmountVM_callback (callback : option proc)
    (r : exec_result) : proc :=
  (* We won't be getting anything on stdout *)
  log_stream red (stderr r) ;;
  (if exit_code_1 r then
     console_error (makeErrorMsg "Failed to unmount VM" None)
   else
     console_log (chalk [gray] "VM has been unmounted.")) ;;
  call callback.

Definition unmountVM (vm : ref) (callback : option proc) : proc :=
  fun s =>
    let cmd := format CMD_UNMOUNT_VM [vm_get s vm "mount_point_host"] in
    (console_log (chalk [gray] "Unmounting VM...") ;;
     exec cmd (unmountVM_callback callback)) s.

Definition startAndMountVM (vm : ref) : proc :=
  startVM vm (Some (mountVM vm)).

Definition unmountAndStopVM (vm : ref) : proc :=
  unmountVM vm (Some (stopVM vm)).

(** The part of the action that follows [var vm = VMS[vmName]]; [vm] is
    the reference to that record. *)
Definition dispatch (operation : string) (vm : ref) : proc :=
  fun s =>
    if negb (vm_has s vm "name") then
      console_error (makeErrorMsg "Incorrect config - VM name missing" None) s
    else if bool_decide (operation = "start") then
      if isMountableVM (deref s vm) then startAndMountVM vm s
      else startVM vm None s
    else if bool_decide (operation = "stop") then
      if isMountableVM (deref s vm) then unmountAndStopVM vm s
      else stopVM vm s
    else if bool_decide (operation = "mount") then
      if negb (isMountableVM (deref s vm)) then
        console_error (makeErrorMsg "Missing mount config." None) s
      else mountVM vm s
    else if bool_decide (operation = "unmount") then
      if negb (isMountableVM (deref s vm)) then
        console_error (makeErrorMsg "Missing mount config." None) s
      else unmountVM vm None s
    else s.

(** [VMS = jsonFile.readFileSync(configFilePath, {throws: false})] *)
Definition load_config : proc :=
  fun s => {| VMS := read_json w configFilePath;
              trace := trace s ++ [ReadFileSync configFilePath] |}.

(** The function given to [program.action]. *)
Definition action (operation : string) (vmName : ostring) : proc :=
  fun s =>
    if negb (bool_decide (operation ∈ ["start"; "stop"; "mount"; "unmount"]))
    then console_error (makeErrorMsg "Invalid operation" (Some operation)) s
    else
      let s := emit (FileExists configFilePath) s in
      if negb (file_exists w configFilePath) then
        console_error
          (makeErrorMsg "Could not find config file " (Some configFilePath)) s
      else
        let s := load_config s in
        if negb (truthy (VMS s)) then
          console_error
            (makeErrorMsg "Failed to parse config file " (Some configFilePath)) s
        else if negb (has (VMS s) (ostr vmName)) then
          console_error (makeErrorMsg "No config available for" vmName) s
        else dispatch operation (ostr vmName) s.

(** The script, run once: [VMS] starts as [null]. *)
Definition main (operation : string) (vmName : ostring) : state :=
  action operation vmName {| VMS := VNull; trace := [] |}.

(** *** The behaviour the specification describes

    The definitions below follow the words of the specification; the
    theorems compare them with the program above. *)

(** A record of the configuration is an object; a field that is absent
    reads as [undefined]. *)
Definition field (m : gmap string value) (f : string) : value :=
  default VUndef (m !! f).

(** The four command lines, for the record [m]. *)
Definition spec_start_command (m : gmap string value) : string :=
  "vboxmanage startvm " +:+ format_s (field m "name") +:+ " --type headless".

Definition spec_stop_command (m : gmap string value) : string :=
  "vboxmanage controlvm " +:+ format_s (field m "name") +:+ " poweroff".

Definition spec_unmount_command (m : gmap string value) : string :=
  "umount -f " +:+ format_s (field m "mount_point_host").

(** [/home/<username>/] *)
Definition spec_remote_default (m : gmap string value) : value :=
  VStr ("/home/" +:+ format_s (field m "username") +:+ "/").

Definition spec_mount_command (m : gmap string value) : string :=
  "sshfs -p " +:+ format_d (default (VNum 22) (m !! "ssh_port"))
  +:+ " " +:+ format_s (field m "username")
  +:+ "@" +:+ format_s (default (VStr "localhost") (m !! "hostname"))
  +:+ ":" +:+ format_s (default (spec_remote_default m)
                          (m !! "mount_point_remote"))
  +:+ " " +:+ format_s (field m "mount_point_host").

(** The configured delay in seconds, 10 when none is configured. *)
Definition spec_mount_delay (m : gmap string value) : value :=
  default (VNum 10) (m !! "mount_delay").

(** The three fields that have a default value. *)
Definition spec_defaults (m : gmap string value) : gmap string value :=
  {[ "ssh_port" := VNum 22;
     "hostname" := VStr "localhost";
     "mount_point_remote" := spec_remote_default m ]}.

(** A command failed: the error is present and its code is exactly 1. *)
Definition failed (r : exec_result) : Prop :=
  ∃ e, error r = Some e ∧ code e = ExitCode 1.

(** The function [p], called in the state [s], ends by running a command
    and handing the outcome the world gives for it to [callback]. *)
Definition hands_outcome (p : proc) (callback : exec_result -> proc)
    (s : state) : Prop :=
  ∃ s0 cmd,
    p s = callback (child_process w (trace s0) cmd) (emit (Exec cmd) s0).

(** Events that only write to the terminal. *)
Definition is_console (e : event) : Prop :=
  match e with
  | ConsoleLog _ | ConsoleError _ => True
  | _ => False
  end.

Definition console_only (t : list event) : Prop := Forall is_console t.

(** The state [s'] is [s] with the events [t] added and the same
    configuration. *)
Definition extends (s : state) (t : list event) (s' : state) : Prop :=
  VMS s' = VMS s ∧ trace s' = trace s ++ t.

(** The state once the configuration file has been found and read. *)
Definition loaded : state :=
  {| VMS := read_json w configFilePath;
     trace := [FileExists configFilePath; ReadFileSync configFilePath] |}.

(** The configuration file exists and holds, under the name [vmName], the
    record [m], which has a [name] field. *)
Definition configured (vmName : ostring) (m : gmap string value) : Prop :=
  file_exists w configFilePath = true
  ∧ get (read_json w configFilePath) (ostr vmName) = VObj m
  ∧ is_Some (m !! "name").

(** The Mount step runs on the record [m]: the record is the one
    configured under [vmName], it is mountable, and the operation is
    [mount], or [start] with a Start command that did not fail. *)
Definition mount_runs (operation : string) (vmName : ostring)
    (m : gmap string value) : Prop :=
  configured vmName m
  ∧ isMountableVM (VObj m) = true
  ∧ (operation = "mount"
     ∨ (operation = "start"
        ∧ ¬ failed (child_process w (trace loaded) (spec_start_command m)))).

(** *** What a run adds to the trace

    The events of each callback, read off its body, as a list. *)

(** The state [s] with the events [t] added. *)
Definition add (t : list event) (s : state) : state :=
  {| VMS := VMS s; trace := trace s ++ t |}.

(** What [log_stream] prints. *)
Definition echo (st : style) (out : option string) : list event :=
  match out with
  | Some x => [ConsoleLog (chalk [st] x)]
  | None => []
  end.

(** The callback of [startVM]: stdout in gray, stderr in red, then the
    verdict. *)
Definition start_report (r : exec_result) : list event :=
  echo gray (stdout r) ++ echo red (stderr r)
  ++ [if exit_code_1 r
      then ConsoleError (makeErrorMsg "Failed to start VM" None)
      else ConsoleLog (chalk [green] "Yo! VM is up and running.")].

(** The callback of [stopVM]: stderr in red before the error, in gray
    before the confirmation. *)
Definition stop_report (r : exec_result) : list event :=
  if exit_code_1 r
  then echo red (stderr r)
       ++ [ConsoleError (makeErrorMsg "Failed to stop VM" None)]
  else echo gray (stderr r) ++ [ConsoleLog (chalk [green] "Bye!")].

(** The callback of [mountVM], for the record [m]. *)
Definition mount_report (m : gmap string value) (r : exec_result)
    : list event :=
  echo red (stderr r)
  ++ [if exit_code_1 r
      then ConsoleError (makeErrorMsg "Failed to mount VM" None)
      else ConsoleLog
             (chalk [gray] "VM mounted at "
              ++ chalk [bold] (js_String (field m "mount_point_host")))].

(** The callback of [unmountVM]. *)
Definition unmount_report (r : exec_result) : list event :=
  echo red (stderr r)
  ++ [if exit_code_1 r
      then ConsoleError (makeErrorMsg "Failed to unmount VM" None)
      else ConsoleLog (chalk [gray] "VM has been unmounted.")].

(** The timers a trace has set: the two factors of each delay. *)
Definition timers (t : list event) : list (value * Z) :=
  omap (fun e => match e with
                 | SetTimeout delay scale => Some (delay, scale)
                 | _ => None
                 end) t.

(** The accesses to the file system in a trace. *)
Definition file_events (t : list event) : list event :=
  omap (fun e => match e with
                 | FileExists _ | ReadFileSync _ => Some e
                 | _ => None
                 end) t.


(** *** Property names and array indices *)

Lemma pretty_N_go_not_n (x : N) (s : string) :
  (∀ t, s ≠ String "n" t) → ∀ t, pretty_N_go x s ≠ String "n" t.
Proof.
  revert s. induction (N.lt_wf_0 x) as [x _ IH]; intros s Hs.
  destruct (decide (x = 0)%N) as [->|Hx].
  - by rewrite pretty_N_go_0.
  - rewrite pretty_N_go_step by lia. apply IH.
    + apply N.div_lt; lia.
    + intros t. unfold pretty_N_char. by repeat case_match.
Qed.

Lemma pretty_nat_not_n (i : nat) (t : string) : pretty i ≠ String "n" t.
Proof.
  unfold pretty, pretty_nat, pretty, pretty_N. case_decide; [done|].
  by apply pretty_N_go_not_n.
Qed.

Lemma array_index_from_Some key i len j :
  array_index_from key i len = Some j →
  pretty j = key ∧ (i ≤ j < i + len)%nat.
Proof.
  revert i. induction len as [|len IH]; intros i; simpl; [done|].
  case_bool_decide as Hp.
  - intros [= <-]. split; [done|lia].
  - intros Hj. apply IH in Hj as [? ?]. split; [done|lia].
Qed.

Lemma array_index_Some key len j :
  array_index key len = Some j → pretty j = key ∧ (j < len)%nat.
Proof.
  intros Hj. apply array_index_from_Some in Hj as [? ?]. split; [done|lia].
Qed.

Lemma array_index_name len : array_index "name" len = None.
Proof.
  destruct (array_index "name" len) as [j|] eqn:Hj; [|done].
  apply array_index_Some in Hj as [Hj _].
  by apply pretty_nat_not_n in Hj.
Qed.

(** Only an object has an own property [name]. *)
Lemma has_name_object v :
  has v "name" = true → ∃ m, v = VObj m ∧ is_Some (m !! "name").
Proof.
  destruct v as [| |b|n|s|l|m]; simpl; try done.
  - rewrite array_index_name. by rewrite bool_decide_eq_false_2 by (by intros []).
  - rewrite array_index_name. by rewrite bool_decide_eq_false_2 by (by intros []).
  - intros Hm. apply bool_decide_eq_true_1 in Hm. eauto.
Qed.

(** *** The configuration as a store of records *)

(** Reading back the slot that was just written. *)
Lemma get_set_eq c k v :
  has (get c k) "name" = true → get (set c k v) k = v.
Proof.
  intros Hn. apply has_name_object in Hn as (m & Hm & _).
  destruct c as [| |b|n|s|l|c]; simpl in *; try done.
  - case_bool_decide; [done|].
    destruct (array_index k (String.length s)) as [i|]; [|done].
    by destruct (char_at s i).
  - case_bool_decide; [done|].
    destruct (array_index k (length l)) as [i|] eqn:Hi; [|done]. simpl.
    rewrite bool_decide_eq_false_2 by done.
    rewrite length_insert, Hi.
    apply array_index_Some in Hi as [_ Hi].
    by rewrite list_lookup_insert_eq.
  - by rewrite lookup_insert_eq.
Qed.

(** The other slots are not touched. *)
Lemma get_set_ne c k k' v : k' ≠ k → get (set c k v) k' = get c k'.
Proof.
  intros Hk. destruct c as [| |b|n|s|l|c]; simpl; try done.
  - destruct (array_index k (length l)) as [i|] eqn:Hi; [|done]. simpl.
    rewrite length_insert. case_bool_decide; [done|].
    destruct (array_index k' (length l)) as [j|] eqn:Hj; [|done].
    apply array_index_Some in Hi as [Hi _].
    apply array_index_Some in Hj as [Hj _].
    rewrite list_lookup_insert_ne; [done|]. congruence.
  - by rewrite lookup_insert_ne.
Qed.

Lemma set_set c k v v' : set (set c k v) k v' = set c k v'.
Proof.
  destruct c as [| |b|n|s|l|c]; simpl; try done.
  - destruct (array_index k (length l)) as [i|] eqn:Hi; simpl.
    + by rewrite length_insert, Hi, list_insert_insert_eq.
    + by rewrite Hi.
  - by rewrite insert_insert_eq.
Qed.

Lemma set_get_id c k : has (get c k) "name" = true → set c k (get c k) = c.
Proof.
  intros Hn. apply has_name_object in Hn as (m & Hm & _).
  destruct c as [| |b|n|s|l|c]; simpl in *; try done.
  - case_bool_decide; [done|].
    destruct (array_index k (length l)) as [i|] eqn:Hi; [|done].
    destruct (l !! i) as [x|] eqn:Hx; [|done]. simpl.
    by rewrite list_insert_id.
  - destruct (c !! k) as [x|] eqn:Hx; [|done]. simpl.
    by rewrite insert_id.
Qed.

(** *** Reading and writing a record through its reference *)

Lemma vm_has_obj s vm m f :
  deref s vm = VObj m → vm_has s vm f = bool_decide (is_Some (m !! f)).
Proof. unfold vm_has. by intros ->. Qed.

Lemma vm_get_obj s vm m f : deref s vm = VObj m → vm_get s vm f = field m f.
Proof. unfold vm_get. by intros ->. Qed.

Lemma union_singleton_present (m : gmap string value) f v :
  is_Some (m !! f) → m ∪ {[ f := v ]} = m.
Proof.
  intros [x Hx]. apply map_eq. intros i. rewrite lookup_union.
  destruct (decide (i = f)) as [->|Hne].
  - by rewrite Hx, lookup_singleton_eq.
  - rewrite lookup_singleton_ne by done. by destruct (m !! i).
Qed.

Lemma lookup_union_singleton_ne (m : gmap string value) f v i :
  i ≠ f → (m ∪ {[ f := v ]}) !! i = m !! i.
Proof.
  intros Hne. rewrite lookup_union, lookup_singleton_ne by done.
  by destruct (m !! i).
Qed.

(** One of the three assignments of [mountVM]: the field is written when
    it is absent, and only then. *)
Lemma default_step c vm m t f (v : state → value) :
  has (get c vm) "name" = true →
  let s := {| VMS := set c vm (VObj m); trace := t |} in
  set_default vm f v s
  = {| VMS := set c vm (VObj (m ∪ {[ f := v s ]})); trace := t |}.
Proof.
  intros Hc s. unfold set_default.
  assert (deref s vm = VObj m) as Hd by (by apply get_set_eq).
  rewrite (vm_has_obj _ _ _ _ Hd). case_bool_decide as Hf; simpl.
  - by rewrite union_singleton_present.
  - unfold vm_set. rewrite Hd. simpl. rewrite set_set.
    rewrite insert_union_singleton_r; [done|].
    by apply eq_None_not_Some.
Qed.

Lemma spec_defaults_unions m :
  spec_defaults m
  = {[ "ssh_port" := VNum 22 ]}
    ∪ ({[ "hostname" := VStr "localhost" ]}
       ∪ {[ "mount_point_remote" := spec_remote_default m ]}).
Proof. unfold spec_defaults. by rewrite !insert_union_singleton_l. Qed.

Lemma mountVM_defaults_slot c vm m t :
  has (get c vm) "name" = true →
  mountVM_defaults vm {| VMS := set c vm (VObj m); trace := t |}
  = {| VMS := set c vm (VObj (m ∪ spec_defaults m)); trace := t |}.
Proof.
  intros Hc. unfold mountVM_defaults, seq.
  rewrite !default_step by done. simpl. do 2 f_equal.
  rewrite spec_defaults_unions, !(assoc_L (∪)). do 3 f_equal.
  erewrite vm_get_obj by (by apply get_set_eq).
  unfold spec_remote_default, field.
  by rewrite !lookup_union_singleton_ne by done.
Qed.

(** The head of [mountVM] completes the record with the defaults of the
    fields that are absent, in the configuration itself. *)
Lemma mountVM_defaults_eq s vm m :
  deref s vm = VObj m → is_Some (m !! "name") →
  mountVM_defaults vm s
  = {| VMS := set (VMS s) vm (VObj (m ∪ spec_defaults m));
       trace := trace s |}.
Proof.
  intros Hd Hn.
  assert (has (get (VMS s) vm) "name" = true) as Hc.
  { fold (deref s vm). rewrite Hd. by apply bool_decide_eq_true_2. }
  rewrite <- mountVM_defaults_slot by done. f_equal.
  rewrite <- Hd. unfold deref. rewrite set_get_id by done. by destruct s.
Qed.

(** *** The command lines *)

Lemma string_app_nil_r (x : string) : x +:+ "" = x.
Proof.
  induction x as [|a x IH]; [done|].
  change (String a x +:+ "") with (String a (x +:+ "")). by rewrite IH.
Qed.

Lemma format_start x :
  format CMD_START_VM [x]
  = "vboxmanage startvm " +:+ format_s x +:+ " --type headless".
Proof. reflexivity. Qed.

Lemma format_stop x :
  format CMD_STOP_VM [x]
  = "vboxmanage controlvm " +:+ format_s x +:+ " poweroff".
Proof. reflexivity. Qed.

Lemma format_unmount x :
  format CMD_UNMOUNT_VM [x] = "umount -f " +:+ format_s x.
Proof.
  transitivity ("umount -f " +:+ format_s x +:+ ""); [reflexivity|].
  by rewrite string_app_nil_r.
Qed.

Lemma format_mount port user host remote local :
  format CMD_MOUNT_VM [port; user; host; remote; local]
  = "sshfs -p " +:+ format_d port +:+ " " +:+ format_s user +:+ "@"
    +:+ format_s host +:+ ":" +:+ format_s remote +:+ " " +:+ format_s local.
Proof.
  transitivity
    ("sshfs -p " +:+ format_d port +:+ " " +:+ format_s user +:+ "@"
     +:+ format_s host +:+ ":" +:+ format_s remote +:+ " "
     +:+ format_s local +:+ ""); [reflexivity|].
  by rewrite string_app_nil_r.
Qed.

(** *** Classification of an outcome *)

Lemma exit_code_1_failed r : exit_code_1 r = true ↔ failed r.
Proof.
  unfold exit_code_1, failed. split.
  - destruct (error r) as [e|]; [|done].
    destruct (code e) as [n| |] eqn:He; try done.
    intros Hn. apply Z.eqb_eq in Hn as ->. eauto.
  - intros (e & -> & ->). done.
Qed.

Lemma exit_code_1_not_failed r : exit_code_1 r = false ↔ ¬ failed r.
Proof.
  rewrite <- exit_code_1_failed. by destruct (exit_code_1 r).
Qed.

(** *** Terminal output leaves the configuration alone *)

Lemma extends_nil s : extends s [] s.
Proof. split; [done|]. by rewrite app_nil_r. Qed.

Lemma extends_emit s e : extends s [e] (emit e s).
Proof. done. Qed.

Lemma extends_trans s1 s2 s3 t1 t2 :
  extends s1 t1 s2 → extends s2 t2 s3 → extends s1 (t1 ++ t2) s3.
Proof.
  intros [Hv1 Ht1] [Hv2 Ht2]. split; [congruence|].
  by rewrite Ht2, Ht1, app_assoc.
Qed.

Lemma extends_deref s t s' vm : extends s t s' → deref s' vm = deref s vm.
Proof. intros [Hv _]. unfold deref. by rewrite Hv. Qed.

Lemma log_stream_console st out s :
  ∃ t, console_only t ∧ extends s t (log_stream st out s).
Proof.
  destruct out as [x|]; simpl.
  - exists [ConsoleLog (chalk [st] x)]. split; [|done].
    by repeat constructor.
  - exists []. split; [constructor|apply extends_nil].
Qed.

Lemma console_only_app t1 t2 :
  console_only t1 → console_only t2 → console_only (t1 ++ t2).
Proof. apply Forall_app_2. Qed.

Lemma console_only_log x : console_only [ConsoleLog x].
Proof. by repeat constructor. Qed.

Lemma console_only_error x : console_only [ConsoleError x].
Proof. by repeat constructor. Qed.

Lemma console_only_commands t : console_only t → commands t = [].
Proof.
  induction 1 as [|e t He _ IH]; [done|].
  destruct e; try done; exact IH.
Qed.

(** *** The callbacks *)

Lemma startVM_callback_failed callback r s :
  exit_code_1 r = true →
  ∃ t, console_only t ∧ extends s t (startVM_callback callback r s).
Proof.
  intros Hr. unfold startVM_callback, seq. rewrite Hr.
  destruct (log_stream_console gray (stdout r) s) as (t1 & Ht1 & He1).
  destruct (log_stream_console red (stderr r) (log_stream gray (stdout r) s))
    as (t2 & Ht2 & He2).
  exists (t1 ++ t2 ++ [ConsoleError (makeErrorMsg "Failed to start VM" None)]).
  split.
  - auto using console_only_app, console_only_error.
  - eauto using extends_trans, extends_emit.
Qed.

Lemma startVM_callback_ok callback r s :
  exit_code_1 r = false →
  ∃ t s', console_only t ∧ extends s t s'
          ∧ startVM_callback callback r s = call callback s'.
Proof.
  intros Hr. unfold startVM_callback, seq. rewrite Hr.
  destruct (log_stream_console gray (stdout r) s) as (t1 & Ht1 & He1).
  destruct (log_stream_console red (stderr r) (log_stream gray (stdout r) s))
    as (t2 & Ht2 & He2).
  eexists (t1 ++ t2 ++ [ConsoleLog _]), _. split; [|split; [|done]].
  - auto using console_only_app, console_only_log.
  - eauto using extends_trans, extends_emit.
Qed.

Lemma stopVM_callback_console r s :
  ∃ t, console_only t ∧ extends s t (stopVM_callback r s).
Proof.
  unfold stopVM_callback, seq. destruct (exit_code_1 r).
  - destruct (log_stream_console red (stderr r) s) as (t1 & Ht1 & He1).
    eexists (t1 ++ [ConsoleError _]). split.
    + auto using console_only_app, console_only_error.
    + eauto using extends_trans, extends_emit.
  - destruct (log_stream_console gray (stderr r) s) as (t1 & Ht1 & He1).
    eexists (t1 ++ [ConsoleLog _]). split.
    + auto using console_only_app, console_only_log.
    + eauto using extends_trans, extends_emit.
Qed.

Lemma mountVM_callback_console vm r s :
  ∃ t, console_only t ∧ extends s t (mountVM_callback vm r s).
Proof.
  unfold mountVM_callback, seq.
  destruct (log_stream_console red (stderr r) s) as (t1 & Ht1 & He1).
  destruct (exit_code_1 r).
  - eexists (t1 ++ [ConsoleError _]). split.
    + auto using console_only_app, console_only_error.
    + eauto using extends_trans, extends_emit.
  - eexists (t1 ++ [ConsoleLog _]). split.
    + auto using console_only_app, console_only_log.
    + eapply extends_trans; [done|]. apply extends_emit.
Qed.

Lemma unmountVM_callback_split callback r s :
  ∃ t s', console_only t ∧ extends s t s'
          ∧ unmountVM_callback callback r s = call callback s'.
Proof.
  unfold unmountVM_callback, seq.
  destruct (log_stream_console red (stderr r) s) as (t1 & Ht1 & He1).
  destruct (exit_code_1 r).
  - eexists (t1 ++ [ConsoleError _]), _. split; [|split; [|done]].
    + auto using console_only_app, console_only_error.
    + eauto using extends_trans, extends_emit.
  - eexists (t1 ++ [ConsoleLog _]), _. split; [|split; [|done]].
    + auto using console_only_app, console_only_log.
    + eauto using extends_trans, extends_emit.
Qed.

(** *** The four operations on a record *)

Lemma startVM_run vm callback s m :
  deref s vm = VObj m →
  startVM vm callback s
  = startVM_callback callback
      (child_process w (trace s) (spec_start_command m))
      (emit (Exec (spec_start_command m)) s).
Proof.
  intros Hd. unfold startVM, exec.
  by rewrite format_start, (vm_get_obj _ _ _ _ Hd).
Qed.

Lemma stopVM_run vm s m :
  deref s vm = VObj m →
  ∃ t, console_only t
       ∧ extends s ([ConsoleLog (chalk [gray] "Stopping VM...");
                     Exec (spec_stop_command m)] ++ t) (stopVM vm s).
Proof.
  intros Hd. unfold stopVM, seq, exec.
  rewrite format_stop, (vm_get_obj _ _ _ _ Hd). fold (spec_stop_command m).
  edestruct stopVM_callback_console as (t & Ht & He).
  exists t. split; [done|].
  eapply (extends_trans _ _ _ [_; _]); [|exact He]. split; simpl; [done|].
  by rewrite <- app_assoc.
Qed.

Lemma unmountVM_run vm callback s m :
  deref s vm = VObj m →
  ∃ t s', console_only t
          ∧ extends s ([ConsoleLog (chalk [gray] "Unmounting VM...");
                        Exec (spec_unmount_command m)] ++ t) s'
          ∧ unmountVM vm callback s = call callback s'.
Proof.
  intros Hd. unfold unmountVM, seq, exec.
  rewrite format_unmount, (vm_get_obj _ _ _ _ Hd).
  fold (spec_unmount_command m).
  edestruct unmountVM_callback_split as (t & s' & Ht & He & Hs').
  exists t, s'. split; [done|]. split; [|exact Hs'].
  eapply (extends_trans _ _ _ [_; _]); [|exact He]. split; simpl; [done|].
  by rewrite <- app_assoc.
Qed.

(** The record with its defaults filled in gives the command line of the
    specification. *)
Lemma mount_command_defaults m :
  let m' := m ∪ spec_defaults m in
  format CMD_MOUNT_VM
    [field m' "ssh_port"; field m' "username"; field m' "hostname";
     field m' "mount_point_remote"; field m' "mount_point_host"]
  = spec_mount_command m.
Proof.
  intros m'. rewrite format_mount. unfold spec_mount_command, field, m'.
  rewrite !lookup_union. unfold spec_defaults.
  rewrite lookup_insert_eq.
  rewrite (lookup_insert_ne _ "ssh_port" "username") by done.
  rewrite (lookup_insert_ne _ "hostname" "username") by done.
  rewrite (lookup_singleton_ne "mount_point_remote" "username") by done.
  rewrite (lookup_insert_ne _ "ssh_port" "hostname") by done.
  rewrite lookup_insert_eq.
  rewrite (lookup_insert_ne _ "ssh_port" "mount_point_remote") by done.
  rewrite (lookup_insert_ne _ "hostname" "mount_point_remote") by done.
  rewrite lookup_singleton_eq.
  rewrite (lookup_insert_ne _ "ssh_port" "mount_point_host") by done.
  rewrite (lookup_insert_ne _ "hostname" "mount_point_host") by done.
  rewrite (lookup_singleton_ne "mount_point_remote" "mount_point_host") by done.
  by destruct (m !! "ssh_port"), (m !! "username"), (m !! "hostname"),
    (m !! "mount_point_remote"), (m !! "mount_point_host").
Qed.

Lemma mountVM_eq vm s m :
  deref s vm = VObj m → is_Some (m !! "name") →
  let t := trace s ++ [ConsoleLog (chalk [gray] "Mounting VM...");
                       SetTimeout (spec_mount_delay m) 1000] in
  mountVM vm s
  = mountVM_callback vm (child_process w t (spec_mount_command m))
      {| VMS := set (VMS s) vm (VObj (m ∪ spec_defaults m));
         trace := t ++ [Exec (spec_mount_command m)] |}.
Proof.
  intros Hd Hn t. unfold mountVM. unfold seq at 1.
  rewrite (mountVM_defaults_eq _ _ _ Hd Hn).
  set (s1 := {| VMS := _; trace := trace s |}).
  assert (deref s1 vm = VObj (m ∪ spec_defaults m)) as Hd1.
  { apply get_set_eq. fold (deref s vm). rewrite Hd.
    by apply bool_decide_eq_true_2. }
  rewrite !(vm_get_obj _ _ _ _ Hd1), (vm_has_obj _ _ _ _ Hd1).
  rewrite mount_command_defaults.
  assert ((if bool_decide (is_Some ((m ∪ spec_defaults m) !! "mount_delay"))
           then field (m ∪ spec_defaults m) "mount_delay" else MOUNT_DELAY)
          = spec_mount_delay m) as ->.
  { unfold spec_mount_delay, field. rewrite lookup_union.
    unfold spec_defaults.
    rewrite !lookup_insert_ne, lookup_singleton_ne by done.
    by destruct (m !! "mount_delay"). }
  unfold seq, setTimeout, seq, exec, console_log, emit. simpl.
  subst t. by rewrite <- !app_assoc.
Qed.

Lemma mountVM_run vm s m :
  deref s vm = VObj m → is_Some (m !! "name") →
  ∃ t, console_only t
       ∧ VMS (mountVM vm s) = set (VMS s) vm (VObj (m ∪ spec_defaults m))
       ∧ trace (mountVM vm s)
         = trace s
           ++ [ConsoleLog (chalk [gray] "Mounting VM...");
               SetTimeout (spec_mount_delay m) 1000;
               Exec (spec_mount_command m)] ++ t.
Proof.
  intros Hd Hn. rewrite (mountVM_eq _ _ _ Hd Hn).
  edestruct mountVM_callback_console as (t & Ht & Hv & He).
  exists t. split; [done|]. split; [exact Hv|].
  rewrite He. simpl. by rewrite <- !app_assoc.
Qed.

(** *** Loading the configuration *)

Lemma get_object_has c k m : get c k = VObj m → has c k = true.
Proof.
  destruct c as [| |b|n|s|l|c]; simpl; try done.
  - case_bool_decide; [done|].
    destruct (array_index k (String.length s)) as [i|]; [|done].
    by destruct (char_at s i).
  - case_bool_decide; [done|].
    destruct (array_index k (length l)) as [i|]; [|done].
    intros _. by apply bool_decide_eq_true_2.
  - destruct (c !! k) as [x|] eqn:Hx; [|done].
    intros _. by apply bool_decide_eq_true_2.
Qed.

Lemma get_object_truthy c k m : get c k = VObj m → truthy c = true.
Proof.
  destruct c as [| |b|n|s|l|c]; simpl; try done.
  case_bool_decide; [done|].
  destruct (array_index k (String.length s)) as [i|] eqn:Hi; [|done].
  apply array_index_Some in Hi as [_ Hi].
  intros _. destruct s; [simpl in Hi; lia|done].
Qed.

Lemma action_loaded operation vmName :
  operation ∈ ["start"; "stop"; "mount"; "unmount"] →
  file_exists w configFilePath = true →
  truthy (read_json w configFilePath) = true →
  has (read_json w configFilePath) (ostr vmName) = true →
  main operation vmName = dispatch operation (ostr vmName) loaded.
Proof.
  intros Hop Hfile Htruthy Hhas. unfold main, action.
  rewrite bool_decide_eq_true_2 by done. simpl.
  rewrite Hfile. simpl. rewrite Htruthy, Hhas. done.
Qed.

Lemma main_configured operation vmName m :
  operation ∈ ["start"; "stop"; "mount"; "unmount"] →
  configured vmName m →
  main operation vmName = dispatch operation (ostr vmName) loaded
  ∧ deref loaded (ostr vmName) = VObj m
  ∧ vm_has loaded (ostr vmName) "name" = true.
Proof.
  intros Hop (Hfile & Hget & Hname). split; [|split].
  - apply action_loaded; eauto using get_object_truthy, get_object_has.
  - exact Hget.
  - unfold vm_has, deref, loaded. simpl. rewrite Hget.
    by apply bool_decide_eq_true_2.
Qed.

Lemma dispatch_named operation vm s :
  vm_has s vm "name" = true →
  dispatch operation vm s
  = if bool_decide (operation = "start") then
      if isMountableVM (deref s vm) then startAndMountVM vm s
      else startVM vm None s
    else if bool_decide (operation = "stop") then
      if isMountableVM (deref s vm) then unmountAndStopVM vm s
      else stopVM vm s
    else if bool_decide (operation = "mount") then
      if negb (isMountableVM (deref s vm)) then
        console_error (makeErrorMsg "Missing mount config." None) s
      else mountVM vm s
    else if bool_decide (operation = "unmount") then
      if negb (isMountableVM (deref s vm)) then
        console_error (makeErrorMsg "Missing mount config." None) s
      else unmountVM vm None s
    else s.
Proof. intros Hn. unfold dispatch. by rewrite Hn. Qed.

(** ** The claims *)

(** C5. A record is classified mountable exactly when both [username] and
    [mount_point_host] are present, whatever other fields it has and
    whatever the values of the two fields are; a record that lacks either
    is not mountable. *)
Theorem C5_mountable_iff_both_fields (m : gmap string value) :
  (isMountableVM (VObj m) = true
   ↔ is_Some (m !! "username") ∧ is_Some (m !! "mount_point_host"))
  ∧ (isMountableVM (VObj m) = false
     ↔ m !! "username" = None ∨ m !! "mount_point_host" = None).
Proof.
  unfold isMountableVM. simpl. split.
  - rewrite andb_true_iff, !bool_decide_eq_true. done.
  - rewrite andb_false_iff, !bool_decide_eq_false, !eq_None_not_Some. done.
Qed.

(** C6. An operation other than [start], [stop], [mount] and [unmount] is
    answered with the "Invalid operation" error and nothing else: the
    configuration file is neither looked for nor read, [VMS] stays [null],
    and no command is run. *)
Theorem C6_invalid_operation_rejected (operation : string) (vmName : ostring) :
  operation ∉ ["start"; "stop"; "mount"; "unmount"] →
  main operation vmName
  = {| VMS := VNull;
       trace := [ConsoleError
                   (makeErrorMsg "Invalid operation" (Some operation))] |}.
Proof.
  intros Hop. unfold main, action.
  by rewrite bool_decide_eq_false_2 by done.
Qed.

(** C9. For each of the four operations: when the configuration file is
    missing, the "Could not find config file" error is printed and the
    action returns; when the file is there and its contents do not parse,
    the "Failed to parse config file" error is printed and the action
    returns.  In both cases nothing else happens: no look-up of the VM, no
    command. *)
Theorem C9_unreadable_config_stops (operation : string) (vmName : ostring) :
  operation ∈ ["start"; "stop"; "mount"; "unmount"] →
  (file_exists w configFilePath = false →
   main operation vmName
   = {| VMS := VNull;
        trace := [FileExists configFilePath;
                  ConsoleError
                    (makeErrorMsg "Could not find config file "
                       (Some configFilePath))] |})
  ∧ (file_exists w configFilePath = true →
     read_json w configFilePath = VNull →
     main operation vmName
     = {| VMS := VNull;
          trace := [FileExists configFilePath;
                    ReadFileSync configFilePath;
                    ConsoleError
                      (makeErrorMsg "Failed to parse config file "
                         (Some configFilePath))] |}).
Proof.
  intros Hop. unfold main, action.
  rewrite bool_decide_eq_true_2 by done. simpl. split.
  - by intros ->.
  - intros -> Hnull. unfold load_config. simpl. by rewrite Hnull.
Qed.

(** C10. With the VM name left out there is no usage error: for each of
    the four operations the action goes on to the configuration file and
    looks the missing name up as the property name it converts to,
    [undefined].  When the configuration was read and has no such property,
    the "No config available for" error is printed, with no value after it,
    and no command is run.  In every other case the run is the run for the
    name [undefined]. *)
Theorem C10_omitted_name_is_looked_up (operation : string) :
  operation ∈ ["start"; "stop"; "mount"; "unmount"] →
  (file_exists w configFilePath = true →
   truthy (read_json w configFilePath) = true →
   has (read_json w configFilePath) "undefined" = false →
   main operation None
   = {| VMS := read_json w configFilePath;
        trace := [FileExists configFilePath;
                  ReadFileSync configFilePath;
                  ConsoleError
                    (chalk [underline; red] "ERROR"
                     ++ chalk [red] ": No config available for")] |})
  ∧ (file_exists w configFilePath = false
     ∨ truthy (read_json w configFilePath) = false
     ∨ has (read_json w configFilePath) "undefined" = true →
     main operation None = main operation (Some "undefined")).
Proof.
  intros Hop. unfold main, action.
  rewrite bool_decide_eq_true_2 by done. simpl. split.
  - intros -> Ht Hh. unfold load_config. simpl. by rewrite Ht, Hh.
  - intros Hcase. unfold load_config.
    destruct (file_exists w configFilePath); simpl; [|done].
    destruct (truthy (read_json w configFilePath)); simpl; [|done].
    destruct Hcase as [?|[?|Hh]]; [done..|]. by rewrite Hh.
Qed.

(** C8. On a record that has a [name] but is not mountable, [mount] and
    [unmount] each print the "Missing mount config." error and do nothing
    else: no command is run and the configuration is left as loaded. *)
Theorem C8_mount_needs_mount_config
    (operation : string) (vmName : ostring) (m : gmap string value) :
  configured vmName m →
  isMountableVM (VObj m) = false →
  operation = "mount" ∨ operation = "unmount" →
  main operation vmName
  = {| VMS := read_json w configFilePath;
       trace := [FileExists configFilePath;
                 ReadFileSync configFilePath;
                 ConsoleError (makeErrorMsg "Missing mount config." None)] |}.
Proof.
  intros Hcfg Hm Hop.
  assert (operation ∈ ["start"; "stop"; "mount"; "unmount"]) as Hin
    by (destruct Hop as [-> | ->]; set_solver).
  destruct (main_configured operation vmName m Hin Hcfg) as (Hmain & Hd & Hn).
  rewrite Hmain, dispatch_named by done. rewrite Hd, Hm.
  by destruct Hop as [-> | ->].
Qed.

(** What [start] does on a record that is mountable, after the
    configuration is loaded. *)
Lemma start_mountable vmName m :
  configured vmName m →
  isMountableVM (VObj m) = true →
  main "start" vmName
  = startVM_callback (Some (mountVM (ostr vmName)))
      (child_process w (trace loaded) (spec_start_command m))
      (emit (Exec (spec_start_command m)) loaded)
  ∧ deref loaded (ostr vmName) = VObj m.
Proof.
  intros Hcfg Hm.
  assert ("start" ∈ ["start"; "stop"; "mount"; "unmount"]) as Hin
    by set_solver.
  destruct (main_configured "start" vmName m Hin Hcfg) as (Hmain & Hd & Hn).
  rewrite Hmain, dispatch_named by done. rewrite Hd, Hm. simpl.
  unfold startAndMountVM. by rewrite (startVM_run _ _ _ _ Hd).
Qed.

(** C1. On a mountable record, [start] runs the Start command for the
    record's [name] first.  When Start does not report a failure, the
    Mount command follows: a timer is set for the configured
    [mount_delay], 10 seconds when there is none, times 1000, and the
    command run at its expiry is [sshfs] with the record's [ssh_port]
    or 22, its [username], its [hostname] or [localhost], its
    [mount_point_remote] or [/home/<username>/], and its
    [mount_point_host].  Everything else the run does is terminal
    output. *)
Theorem C1_start_then_mount (vmName : ostring) (m : gmap string value) :
  configured vmName m →
  isMountableVM (VObj m) = true →
  let r := child_process w (trace loaded) (spec_start_command m) in
  let t := trace (main "start" vmName) in
  (∃ t', t = trace loaded ++ Exec (spec_start_command m) :: t')
  ∧ (¬ failed r →
     ∃ t1 t2, console_only t1 ∧ console_only t2
       ∧ t = trace loaded
             ++ [Exec (spec_start_command m)] ++ t1
             ++ [SetTimeout (spec_mount_delay m) 1000;
                 Exec (spec_mount_command m)] ++ t2).
Proof.
  intros Hcfg Hm r t. subst r t.
  destruct (start_mountable vmName m Hcfg Hm) as (Hmain & Hd).
  assert (is_Some (m !! "name")) as Hn by apply Hcfg.
  rewrite Hmain.
  set (r := child_process w (trace loaded) (spec_start_command m)).
  set (s1 := emit (Exec (spec_start_command m)) loaded).
  destruct (exit_code_1 r) eqn:Hr.
  - destruct (startVM_callback_failed (Some (mountVM (ostr vmName))) r s1 Hr)
      as (t1 & _ & _ & ->).
    split.
    + by exists t1.
    + intros Hnf. by apply exit_code_1_not_failed in Hnf; congruence.
  - destruct (startVM_callback_ok (Some (mountVM (ostr vmName))) r s1 Hr)
      as (t1 & s' & Ht1 & He1 & ->). simpl.
    assert (deref s' (ostr vmName) = VObj m) as Hd'.
    { by rewrite (extends_deref _ _ _ _ He1). }
    destruct (mountVM_run _ _ _ Hd' Hn) as (t2 & Ht2 & _ & ->).
    destruct He1 as [_ ->]. simpl. rewrite <- ?app_assoc. simpl.
    split; [by eexists|]. intros _.
    exists (t1 ++ [ConsoleLog (chalk [gray] "Mounting VM...")]), t2.
    split; [auto using console_only_app, console_only_log|].
    split; [done|]. by rewrite <- ?app_assoc.
Qed.

(** C4. On a mountable record, when the Start command fails with exit
    code 1, [start] never runs the Mount command: after Start the run
    only writes to the terminal, sets no timer, and leaves the
    configuration as loaded. *)
Theorem C4_failed_start_never_mounts (vmName : ostring) (m : gmap string value) :
  configured vmName m →
  isMountableVM (VObj m) = true →
  failed (child_process w (trace loaded) (spec_start_command m)) →
  ∃ t1, console_only t1
    ∧ trace (main "start" vmName)
      = trace loaded ++ [Exec (spec_start_command m)] ++ t1
    ∧ commands (trace (main "start" vmName)) = [spec_start_command m]
    ∧ VMS (main "start" vmName) = read_json w configFilePath.
Proof.
  intros Hcfg Hm Hr%exit_code_1_failed.
  destruct (start_mountable vmName m Hcfg Hm) as (Hmain & Hd).
  rewrite Hmain.
  destruct (startVM_callback_failed (Some (mountVM (ostr vmName))) _
              (emit (Exec (spec_start_command m)) loaded) Hr)
    as (t1 & Ht1 & Hv & He).
  exists t1. split; [done|]. rewrite He, Hv. simpl.
  split; [done|]. split; [|done].
  by rewrite (console_only_commands t1 Ht1).
Qed.

(** C3. On a mountable record, [stop] runs the Unmount command and then,
    whatever the outcome of Unmount, the Stop command; on a record with a
    [name] that is not mountable, [stop] runs the Stop command alone.
    Everything else the run does is terminal output. *)
Theorem C3_stop_unmounts_then_stops (vmName : ostring) (m : gmap string value) :
  configured vmName m →
  (isMountableVM (VObj m) = true →
   ∃ t1 t2, console_only t1 ∧ console_only t2
     ∧ trace (main "stop" vmName)
       = trace loaded
         ++ [ConsoleLog (chalk [gray] "Unmounting VM...");
             Exec (spec_unmount_command m)] ++ t1
         ++ [Exec (spec_stop_command m)] ++ t2)
  ∧ (isMountableVM (VObj m) = false →
     ∃ t2, console_only t2
       ∧ trace (main "stop" vmName)
         = trace loaded
           ++ [ConsoleLog (chalk [gray] "Stopping VM...");
               Exec (spec_stop_command m)] ++ t2).
Proof.
  intros Hcfg.
  assert ("stop" ∈ ["start"; "stop"; "mount"; "unmount"]) as Hin
    by set_solver.
  destruct (main_configured "stop" vmName m Hin Hcfg) as (Hmain & Hd & Hn).
  rewrite Hmain, dispatch_named by done. rewrite Hd. simpl.
  split; intros ->.
  - unfold unmountAndStopVM.
    destruct (unmountVM_run (ostr vmName) (Some (stopVM (ostr vmName)))
                loaded m Hd) as (t1 & s' & Ht1 & He1 & ->). simpl.
    assert (deref s' (ostr vmName) = VObj m) as Hd'.
    { by rewrite (extends_deref _ _ _ _ He1). }
    destruct (stopVM_run _ _ _ Hd') as (t2 & Ht2 & _ & ->).
    destruct He1 as [_ ->].
    exists (t1 ++ [ConsoleLog (chalk [gray] "Stopping VM...")]), t2.
    split; [auto using console_only_app, console_only_log|].
    split; [done|]. simpl. by rewrite <- ?app_assoc.
  - destruct (stopVM_run _ _ _ Hd) as (t2 & Ht2 & _ & ->).
    by exists t2.
Qed.

(** C2. Each of the four functions hands the outcome of its command to its
    callback, and the callback reports a failure exactly when the error of
    the child process is present and its code is 1; the last line printed
    is then the "Failed to ..." error.  Every other outcome, a present
    error with another exit code included, ends with the line that confirms
    success.  The continuation of Start is called exactly on those other
    outcomes, the continuation of Unmount on every outcome. *)
Theorem C2_failure_is_exit_code_1
    (vm : ref) (callback : option proc) (r : exec_result) (s : state) :
  let report (p : proc) := last (trace (p s)) in
  (hands_outcome (startVM vm callback) (startVM_callback callback) s
   ∧ hands_outcome (stopVM vm) stopVM_callback s
   ∧ hands_outcome (mountVM vm) (mountVM_callback vm) s
   ∧ hands_outcome (unmountVM vm callback) (unmountVM_callback callback) s)
  (* Start *)
  ∧ (report (startVM_callback None r)
     = Some (ConsoleError (makeErrorMsg "Failed to start VM" None))
     ↔ failed r)
  ∧ (failed r → startVM_callback callback r s = startVM_callback None r s)
  ∧ (¬ failed r →
     report (startVM_callback None r)
     = Some (ConsoleLog (chalk [green] "Yo! VM is up and running."))
     ∧ startVM_callback callback r s
       = call callback (startVM_callback None r s))
  (* Stop *)
  ∧ (report (stopVM_callback r)
     = Some (ConsoleError (makeErrorMsg "Failed to stop VM" None))
     ↔ failed r)
  ∧ (¬ failed r →
     report (stopVM_callback r) = Some (ConsoleLog (chalk [green] "Bye!")))
  (* Mount *)
  ∧ (report (mountVM_callback vm r)
     = Some (ConsoleError (makeErrorMsg "Failed to mount VM" None))
     ↔ failed r)
  ∧ (¬ failed r →
     report (mountVM_callback vm r)
     = Some (ConsoleLog
               (chalk [gray] "VM mounted at "
                ++ chalk [bold]
                     (js_String (vm_get s vm "mount_point_host")))))
  (* Unmount *)
  ∧ (report (unmountVM_callback None r)
     = Some (ConsoleError (makeErrorMsg "Failed to unmount VM" None))
     ↔ failed r)
  ∧ (¬ failed r →
     report (unmountVM_callback None r)
     = Some (ConsoleLog (chalk [gray] "VM has been unmounted.")))
  ∧ unmountVM_callback callback r s
    = call callback (unmountVM_callback None r s).
Proof.
  intros report. subst report. split.
  { repeat split; eexists _, _; reflexivity. }
  unfold startVM_callback, stopVM_callback, mountVM_callback,
    unmountVM_callback, seq, console_error, console_log.
  destruct (exit_code_1 r) eqn:Hr.
  - assert (failed r) as Hf by (by apply exit_code_1_failed).
    simpl. rewrite !last_snoc. repeat split; try done.
  - assert (¬ failed r) as Hf by (by apply exit_code_1_not_failed).
    simpl. unfold skip. rewrite !last_snoc.
    assert (vm_get (log_stream red (stderr r) s) vm "mount_point_host"
            = vm_get s vm "mount_point_host") as ->.
    { by destruct (stderr r). }
    repeat split; try done.
Qed.

(** ** The operations in closed form *)

Lemma add_nil s : add [] s = s.
Proof. destruct s. unfold add. simpl. by rewrite app_nil_r. Qed.

Lemma add_add t1 t2 s : add t2 (add t1 s) = add (t1 ++ t2) s.
Proof. unfold add. simpl. by rewrite app_assoc. Qed.

Lemma emit_add e s : emit e s = add [e] s.
Proof. done. Qed.

Lemma log_stream_add st out s : log_stream st out s = add (echo st out) s.
Proof. destruct out; simpl; [done|]. by rewrite add_nil. Qed.

Lemma startVM_callback_exact callback r s :
  startVM_callback callback r s
  = if exit_code_1 r then add (start_report r) s
    else call callback (add (start_report r) s).
Proof.
  unfold startVM_callback, seq, start_report.
  rewrite !log_stream_add, add_add.
  destruct (exit_code_1 r); unfold seq, console_error, console_log;
    rewrite ?emit_add; by rewrite add_add, <- app_assoc.
Qed.

Lemma stopVM_callback_exact r s :
  stopVM_callback r s = add (stop_report r) s.
Proof.
  unfold stopVM_callback, seq, stop_report.
  destruct (exit_code_1 r); rewrite log_stream_add;
    unfold console_error, console_log;
    rewrite ?emit_add; by rewrite add_add.
Qed.

Lemma mountVM_callback_exact vm r s m :
  deref s vm = VObj m →
  mountVM_callback vm r s = add (mount_report m r) s.
Proof.
  intros Hd. unfold mountVM_callback, seq, mount_report.
  rewrite log_stream_add.
  destruct (exit_code_1 r); unfold console_error, console_log.
  - rewrite ?emit_add. by rewrite add_add.
  - assert (vm_get (add (echo red (stderr r)) s) vm "mount_point_host"
            = field m "mount_point_host") as ->.
    { by apply vm_get_obj. }
    rewrite ?emit_add. by rewrite add_add.
Qed.

Lemma unmountVM_callback_exact callback r s :
  unmountVM_callback callback r s = call callback (add (unmount_report r) s).
Proof.
  unfold unmountVM_callback, seq, unmount_report.
  rewrite log_stream_add.
  destruct (exit_code_1 r); unfold console_error, console_log;
    rewrite ?emit_add; by rewrite add_add.
Qed.

Lemma startVM_exact vm callback s m :
  deref s vm = VObj m →
  let c := spec_start_command m in
  let r := child_process w (trace s) c in
  startVM vm callback s
  = if exit_code_1 r then add ([Exec c] ++ start_report r) s
    else call callback (add ([Exec c] ++ start_report r) s).
Proof.
  intros Hd c r. rewrite (startVM_run _ _ _ _ Hd), startVM_callback_exact.
  fold c r. rewrite ?emit_add. by rewrite add_add.
Qed.

Lemma stopVM_exact vm s m :
  deref s vm = VObj m →
  let c := spec_stop_command m in
  let r := child_process w
             (trace s ++ [ConsoleLog (chalk [gray] "Stopping VM...")]) c in
  stopVM vm s
  = add ([ConsoleLog (chalk [gray] "Stopping VM..."); Exec c]
         ++ stop_report r) s.
Proof.
  intros Hd c r. unfold stopVM, seq, exec.
  rewrite format_stop, (vm_get_obj _ _ _ _ Hd). fold (spec_stop_command m).
  rewrite stopVM_callback_exact. unfold console_log.
  rewrite ?emit_add. by rewrite !add_add.
Qed.

Lemma unmountVM_exact vm callback s m :
  deref s vm = VObj m →
  let c := spec_unmount_command m in
  let r := child_process w
             (trace s ++ [ConsoleLog (chalk [gray] "Unmounting VM...")]) c in
  unmountVM vm callback s
  = call callback
      (add ([ConsoleLog (chalk [gray] "Unmounting VM..."); Exec c]
            ++ unmount_report r) s).
Proof.
  intros Hd c r. unfold unmountVM, seq, exec.
  rewrite format_unmount, (vm_get_obj _ _ _ _ Hd).
  fold (spec_unmount_command m).
  rewrite unmountVM_callback_exact. unfold console_log.
  rewrite ?emit_add. by rewrite !add_add.
Qed.

Lemma field_defaults_host m :
  field (m ∪ spec_defaults m) "mount_point_host" = field m "mount_point_host".
Proof.
  unfold field, spec_defaults. rewrite lookup_union.
  rewrite !lookup_insert_ne, lookup_singleton_ne by done.
  by destruct (m !! "mount_point_host").
Qed.

Lemma mountVM_exact vm s m :
  deref s vm = VObj m → is_Some (m !! "name") →
  let c := spec_mount_command m in
  let t := [ConsoleLog (chalk [gray] "Mounting VM...");
            SetTimeout (spec_mount_delay m) 1000] in
  let r := child_process w (trace s ++ t) c in
  mountVM vm s
  = {| VMS := set (VMS s) vm (VObj (m ∪ spec_defaults m));
       trace := trace s ++ t ++ [Exec c] ++ mount_report m r |}.
Proof.
  intros Hd Hn c t r. rewrite (mountVM_eq _ _ _ Hd Hn).
  erewrite mountVM_callback_exact.
  2:{ unfold deref. simpl. apply get_set_eq. fold (deref s vm). rewrite Hd.
      by apply bool_decide_eq_true_2. }
  unfold add, mount_report. simpl. rewrite field_defaults_host.
  by rewrite <- !app_assoc.
Qed.

(** ** Further properties of the action *)

(** X1. For each of the four operations, when the value stored under the
    VM name is not an object with a [name] field (an object without it,
    or a string, a number, an array), the "Incorrect config - VM name
    missing" error is printed and nothing else happens: no command, and
    no "Missing mount config." error, whatever the operation. *)
Theorem X1_record_without_name (operation : string) (vmName : ostring) :
  operation ∈ ["start"; "stop"; "mount"; "unmount"] →
  file_exists w configFilePath = true →
  truthy (read_json w configFilePath) = true →
  has (read_json w configFilePath) (ostr vmName) = true →
  (∀ m, get (read_json w configFilePath) (ostr vmName) = VObj m →
        m !! "name" = None) →
  main operation vmName
  = add [ConsoleError (makeErrorMsg "Incorrect config - VM name missing" None)]
      loaded.
Proof.
  intros Hop Hfile Ht Hh Hnone.
  rewrite action_loaded by done. unfold dispatch.
  destruct (vm_has loaded (ostr vmName) "name") eqn:Hn; [|done].
  apply has_name_object in Hn as (m & Hm & [x Hx]).
  apply Hnone in Hm. congruence.
Qed.

(** X2. For each of the four operations, when the configuration has no
    property with the given VM name, the "No config available for" error
    is printed, followed by the name unless the name is the empty string,
    and nothing else happens. *)
Theorem X2_unknown_name (operation : string) (name : string) :
  operation ∈ ["start"; "stop"; "mount"; "unmount"] →
  file_exists w configFilePath = true →
  truthy (read_json w configFilePath) = true →
  has (read_json w configFilePath) name = false →
  main operation (Some name)
  = add [ConsoleError
           (chalk [underline; red] "ERROR"
            ++ chalk [red] ": No config available for"
            ++ (if bool_decide (name = "") then []
                else chalk [magenta] (" " +:+ name)))]
      loaded.
Proof.
  intros Hop Hfile Ht Hh. unfold main, action.
  rewrite bool_decide_eq_true_2 by done. simpl.
  rewrite Hfile. simpl. rewrite Ht, Hh. simpl.
  unfold makeErrorMsg, otruthy. by case_bool_decide.
Qed.

(** X3. A configuration file that parses to a falsy value ([null],
    [false], [0] or the empty string) is reported as one that failed to
    parse, for each of the four operations. *)
Theorem X3_falsy_config_is_parse_failure (operation : string) (vmName : ostring) :
  operation ∈ ["start"; "stop"; "mount"; "unmount"] →
  file_exists w configFilePath = true →
  read_json w configFilePath = VNull
  ∨ read_json w configFilePath = VBool false
  ∨ read_json w configFilePath = VNum 0
  ∨ read_json w configFilePath = VStr "" →
  main operation vmName
  = add [ConsoleError
           (makeErrorMsg "Failed to parse config file " (Some configFilePath))]
      loaded.
Proof.
  intros Hop Hfile Hcfg. unfold main, action.
  rewrite bool_decide_eq_true_2 by done. simpl.
  rewrite Hfile. simpl.
  assert (truthy (read_json w configFilePath) = false) as ->; [|done].
  by destruct Hcfg as [Hc|[Hc|[Hc|Hc]]]; rewrite Hc.
Qed.

Lemma pretty_N_go_not_l (x : N) (s : string) :
  (∀ t, s ≠ String "l" t) → ∀ t, pretty_N_go x s ≠ String "l" t.
Proof.
  revert s. induction (N.lt_wf_0 x) as [x _ IH]; intros s Hs.
  destruct (decide (x = 0)%N) as [->|Hx].
  - by rewrite pretty_N_go_0.
  - rewrite pretty_N_go_step by lia. apply IH.
    + apply N.div_lt; lia.
    + intros t. unfold pretty_N_char. by repeat case_match.
Qed.

Lemma pretty_nat_not_length (i : nat) : pretty i ≠ "length".
Proof.
  unfold pretty, pretty_nat, pretty, pretty_N. case_decide; [done|].
  by apply pretty_N_go_not_l.
Qed.

Lemma array_index_from_pretty i i0 len :
  (i0 ≤ i < i0 + len)%nat → array_index_from (pretty i) i0 len = Some i.
Proof.
  revert i0. induction len as [|len IH]; intros i0 Hi; simpl; [lia|].
  case_bool_decide as Hp.
  - apply (inj pretty) in Hp. by subst.
  - apply IH. assert (i0 ≠ i) by congruence. lia.
Qed.

(** X4. A configuration that is a JSON array serves its elements under
    their indices: the element at position [i], when it is an object with
    a [name], is the record of the VM name that is the decimal form of
    [i], and each operation is dispatched on it.  The name [length] is
    found too, but its value is a number, so it is reported as a record
    without a name. *)
Theorem X4_array_config (l : list value) (i : nat) (m : gmap string value)
    (operation : string) :
  operation ∈ ["start"; "stop"; "mount"; "unmount"] →
  file_exists w configFilePath = true →
  read_json w configFilePath = VArr l →
  l !! i = Some (VObj m) →
  is_Some (m !! "name") →
  configured (Some (pretty i)) m
  ∧ main operation (Some (pretty i)) = dispatch operation (pretty i) loaded
  ∧ main operation (Some "length")
    = add [ConsoleError
             (makeErrorMsg "Incorrect config - VM name missing" None)] loaded.
Proof.
  intros Hop Hfile Hcfg Hi Hn.
  assert (configured (Some (pretty i)) m) as Hc.
  { split; [done|]. split; [|done]. rewrite Hcfg. simpl.
    rewrite bool_decide_eq_false_2 by apply pretty_nat_not_length.
    unfold array_index. rewrite array_index_from_pretty.
    - by rewrite Hi.
    - apply lookup_lt_Some in Hi. lia. }
  split; [done|]. split.
  - by destruct (main_configured operation (Some (pretty i)) m Hop Hc).
  - rewrite action_loaded; [|done|done|by rewrite Hcfg|by rewrite Hcfg].
    unfold dispatch, vm_has, deref, loaded. simpl. by rewrite Hcfg.
Qed.

(** *** Each operation, event by event *)

(** X5. On a record with a [name] that is not mountable, [start] runs the
    Start command alone: it prints the command's stdout in gray and its
    stderr in red, then the error when the exit code is 1 and the
    confirmation otherwise.  No timer is set, no Mount command is run, and
    the configuration is left as loaded. *)
Theorem X5_start_plain (vmName : ostring) (m : gmap string value) :
  configured vmName m →
  isMountableVM (VObj m) = false →
  let c := spec_start_command m in
  let r := child_process w (trace loaded) c in
  main "start" vmName = add ([Exec c] ++ start_report r) loaded.
Proof.
  intros Hcfg Hm c r.
  destruct (main_configured "start" vmName m) as (Hmain & Hd & Hn);
    [set_solver|done|].
  rewrite Hmain, dispatch_named by done. rewrite Hd, Hm. simpl.
  rewrite (startVM_exact _ _ _ _ Hd). fold c r. by destruct (exit_code_1 r).
Qed.

(** X6. On a mountable record, [start] in full: the Start command and its
    report; when the exit code is 1 the run ends there, with the
    configuration as loaded.  Otherwise the "Mounting VM..." line, the
    timer, the Mount command and its report follow, and the record in the
    configuration has gained the defaults of its absent fields, whether
    Mount succeeds or not. *)
Theorem X6_start_mountable (vmName : ostring) (m : gmap string value) :
  configured vmName m →
  isMountableVM (VObj m) = true →
  let c1 := spec_start_command m in
  let r1 := child_process w (trace loaded) c1 in
  let t1 := trace loaded ++ [Exec c1] ++ start_report r1
            ++ [ConsoleLog (chalk [gray] "Mounting VM...");
                SetTimeout (spec_mount_delay m) 1000] in
  let c2 := spec_mount_command m in
  let r2 := child_process w t1 c2 in
  main "start" vmName
  = if exit_code_1 r1 then add ([Exec c1] ++ start_report r1) loaded
    else {| VMS := set (read_json w configFilePath) (ostr vmName)
                     (VObj (m ∪ spec_defaults m));
            trace := t1 ++ [Exec c2] ++ mount_report m r2 |}.
Proof.
  intros Hcfg Hm c1 r1 t1 c2 r2.
  destruct (main_configured "start" vmName m) as (Hmain & Hd & Hn);
    [set_solver|done|].
  rewrite Hmain, dispatch_named by done. rewrite Hd, Hm. simpl.
  unfold startAndMountVM. rewrite (startVM_exact _ _ _ _ Hd). fold c1 r1.
  destruct (exit_code_1 r1); [done|]. simpl.
  rewrite (mountVM_exact _ _ m); [|exact Hd|apply Hcfg].
  simpl. subst t1 r2 c2. f_equal. by rewrite <- !app_assoc.
Qed.

(** X7. [stop] in full.  On a mountable record: the "Unmounting VM..."
    line, the Unmount command and its report, then the "Stopping VM..."
    line, the Stop command and its report.  On a record that is not
    mountable: the "Stopping VM..." line, the Stop command and its report.
    Stop prints the command's stderr in red before the error and in gray
    before the confirmation, and never its stdout.  The configuration is
    left as loaded. *)
Theorem X7_stop_in_full (vmName : ostring) (m : gmap string value) :
  configured vmName m →
  let unmounting := ConsoleLog (chalk [gray] "Unmounting VM...") in
  let stopping := ConsoleLog (chalk [gray] "Stopping VM...") in
  let cu := spec_unmount_command m in
  let cs := spec_stop_command m in
  (isMountableVM (VObj m) = true →
   let ru := child_process w (trace loaded ++ [unmounting]) cu in
   let t := [unmounting; Exec cu] ++ unmount_report ru in
   let rs := child_process w (trace loaded ++ t ++ [stopping]) cs in
   main "stop" vmName
   = add (t ++ [stopping; Exec cs] ++ stop_report rs) loaded)
  ∧ (isMountableVM (VObj m) = false →
     let rs := child_process w (trace loaded ++ [stopping]) cs in
     main "stop" vmName = add ([stopping; Exec cs] ++ stop_report rs) loaded).
Proof.
  intros Hcfg unmounting stopping cu cs.
  destruct (main_configured "stop" vmName m) as (Hmain & Hd & Hn);
    [set_solver|done|].
  rewrite Hmain, dispatch_named by done. rewrite Hd. simpl.
  split; intros ->.
  - unfold unmountAndStopVM.
    rewrite (unmountVM_exact _ _ _ _ Hd). simpl.
    rewrite (stopVM_exact _ _ m); [|exact Hd].
    rewrite add_add. simpl. subst cu cs unmounting stopping.
    by rewrite <- ?app_assoc.
  - by rewrite (stopVM_exact _ _ _ Hd).
Qed.

(** X8. On a mountable record, [mount] in full: the record gains the
    defaults of its absent fields, the "Mounting VM..." line is printed,
    the timer is set, the Mount command is run, and its stderr is printed
    in red before the error or the "VM mounted at" line.  The stdout of
    the command is never printed; the defaults stay written when the
    command fails. *)
Theorem X8_mount_in_full (vmName : ostring) (m : gmap string value) :
  configured vmName m →
  isMountableVM (VObj m) = true →
  let t := trace loaded
           ++ [ConsoleLog (chalk [gray] "Mounting VM...");
               SetTimeout (spec_mount_delay m) 1000] in
  let c := spec_mount_command m in
  let r := child_process w t c in
  main "mount" vmName
  = {| VMS := set (read_json w configFilePath) (ostr vmName)
                (VObj (m ∪ spec_defaults m));
       trace := t ++ [Exec c] ++ mount_report m r |}.
Proof.
  intros Hcfg Hm t c r.
  destruct (main_configured "mount" vmName m) as (Hmain & Hd & Hn);
    [set_solver|done|].
  rewrite Hmain, dispatch_named by done. rewrite Hd, Hm. simpl.
  rewrite (mountVM_exact _ _ m); [|exact Hd|apply Hcfg].
  simpl. subst t r c. f_equal.
Qed.

(** X9. On a mountable record, [unmount] runs the Unmount command alone:
    the "Unmounting VM..." line, the command, its stderr in red, then the
    error when the exit code is 1 and the confirmation otherwise.  The Stop
    command is not run and the configuration is left as loaded. *)
Theorem X9_unmount_in_full (vmName : ostring) (m : gmap string value) :
  configured vmName m →
  isMountableVM (VObj m) = true →
  let unmounting := ConsoleLog (chalk [gray] "Unmounting VM...") in
  let c := spec_unmount_command m in
  let r := child_process w (trace loaded ++ [unmounting]) c in
  main "unmount" vmName = add ([unmounting; Exec c] ++ unmount_report r) loaded.
Proof.
  intros Hcfg Hm unmounting c r.
  destruct (main_configured "unmount" vmName m) as (Hmain & Hd & Hn);
    [set_solver|done|].
  rewrite Hmain, dispatch_named by done. rewrite Hd, Hm.
  rewrite !bool_decide_eq_false_2, bool_decide_eq_true_2 by done.
  cbn [negb]. by rewrite (unmountVM_exact _ _ _ _ Hd).
Qed.

(** *** Every run at once *)

Lemma commands_app t1 t2 : commands (t1 ++ t2) = commands t1 ++ commands t2.
Proof. apply omap_app. Qed.

Lemma timers_app t1 t2 : timers (t1 ++ t2) = timers t1 ++ timers t2.
Proof. apply omap_app. Qed.

Lemma file_events_app t1 t2 :
  file_events (t1 ++ t2) = file_events t1 ++ file_events t2.
Proof. apply omap_app. Qed.

Lemma console_only_timers t : console_only t → timers t = [].
Proof.
  induction 1 as [|e t He _ IH]; [done|].
  destruct e; try done; exact IH.
Qed.

Lemma console_only_file_events t : console_only t → file_events t = [].
Proof.
  induction 1 as [|e t He _ IH]; [done|].
  destruct e; try done; exact IH.
Qed.

Lemma console_only_echo st out : console_only (echo st out).
Proof. destruct out; repeat constructor. Qed.

Lemma console_only_start_report r : console_only (start_report r).
Proof.
  unfold start_report. repeat apply console_only_app;
    try apply console_only_echo.
  destruct (exit_code_1 r); by repeat constructor.
Qed.

Lemma console_only_stop_report r : console_only (stop_report r).
Proof.
  unfold stop_report. destruct (exit_code_1 r);
    (apply console_only_app; [apply console_only_echo|by repeat constructor]).
Qed.

Lemma console_only_mount_report m r : console_only (mount_report m r).
Proof.
  unfold mount_report. apply console_only_app; [apply console_only_echo|].
  destruct (exit_code_1 r); by repeat constructor.
Qed.

Lemma console_only_unmount_report r : console_only (unmount_report r).
Proof.
  unfold unmount_report. apply console_only_app; [apply console_only_echo|].
  destruct (exit_code_1 r); by repeat constructor.
Qed.

(** What a list of events counts for, when its console output is left
    out. *)
Ltac quiet :=
  repeat progress (
  rewrite ?commands_app, ?timers_app, ?file_events_app,
    ?(console_only_commands _ (console_only_start_report _)),
    ?(console_only_commands _ (console_only_stop_report _)),
    ?(console_only_commands _ (console_only_mount_report _ _)),
    ?(console_only_commands _ (console_only_unmount_report _)),
    ?(console_only_timers _ (console_only_start_report _)),
    ?(console_only_timers _ (console_only_stop_report _)),
    ?(console_only_timers _ (console_only_mount_report _ _)),
    ?(console_only_timers _ (console_only_unmount_report _)),
    ?(console_only_file_events _ (console_only_start_report _)),
    ?(console_only_file_events _ (console_only_stop_report _)),
    ?(console_only_file_events _ (console_only_mount_report _ _)),
    ?(console_only_file_events _ (console_only_unmount_report _));
  simpl).

(** What [dispatch] adds to a state. *)
Lemma dispatch_shape operation vm s :
  ∃ t, trace (dispatch operation vm s) = trace s ++ t
    ∧ file_events t = []
    ∧ (length (commands t) ≤ 2)%nat
    ∧ (length (timers t) ≤ 1)%nat
    ∧ (commands t ≠ [] → ∃ m, deref s vm = VObj m ∧ is_Some (m !! "name"))
    ∧ (operation ≠ "start" → operation ≠ "mount" →
       VMS (dispatch operation vm s) = VMS s).
Proof.
  destruct (vm_has s vm "name") eqn:Hname.
  2:{ unfold dispatch. rewrite Hname. simpl. eexists [_].
      repeat split; simpl; try done; try lia; eauto. }
  pose proof Hname as Hobj. apply has_name_object in Hobj as (m & Hd & Hn).
  assert (∃ m, deref s vm = VObj m ∧ is_Some (m !! "name")) as Hm by eauto.
  rewrite dispatch_named by done. rewrite Hd.
  repeat case_bool_decide; subst.
  - destruct (isMountableVM (VObj m)).
    + unfold startAndMountVM. rewrite (startVM_exact _ _ _ _ Hd).
      destruct (exit_code_1 _).
      * eexists. split; [reflexivity|]. quiet. repeat split; try done; try lia; eauto.
      * simpl. rewrite (mountVM_exact _ _ m); [|exact Hd|exact Hn]. simpl.
        rewrite <- app_assoc.
        eexists. split; [reflexivity|]. quiet. repeat split; try done; try lia; eauto.
    + rewrite (startVM_exact _ _ _ _ Hd). destruct (exit_code_1 _);
        (eexists; split; [reflexivity|]; quiet; repeat split; try done; try lia; eauto).
  - destruct (isMountableVM (VObj m)).
    + unfold unmountAndStopVM. rewrite (unmountVM_exact _ _ _ _ Hd). simpl.
      rewrite (stopVM_exact _ _ m); [|exact Hd]. rewrite add_add.
      eexists. split; [reflexivity|]. quiet. repeat split; try done; try lia; eauto.
    + rewrite (stopVM_exact _ _ _ Hd).
      eexists. split; [reflexivity|]. quiet. repeat split; try done; try lia; eauto.
  - destruct (isMountableVM (VObj m)); cbn [negb].
    + rewrite (mountVM_exact _ _ m); [|exact Hd|exact Hn]. simpl.
      eexists. split; [reflexivity|]. quiet. repeat split; try done; try lia; eauto.
    + eexists [_]. repeat split; simpl; try done; try lia; eauto.
  - destruct (isMountableVM (VObj m)); cbn [negb].
    + rewrite (unmountVM_exact _ _ _ _ Hd).
      eexists. split; [reflexivity|]. quiet. repeat split; try done; try lia; eauto.
    + eexists [_]. repeat split; simpl; try done; try lia; eauto.
  - exists []. rewrite app_nil_r. repeat split; simpl; try done; try lia; eauto.
Qed.

(** What a run is made of: the accesses to the configuration file, then
    events that are none. *)
Lemma main_shape operation vmName :
  let valid := bool_decide (operation ∈ ["start"; "stop"; "mount"; "unmount"]) in
  let found := file_exists w configFilePath in
  ∃ t, trace (main operation vmName)
       = (if valid
          then FileExists configFilePath
               :: (if found then [ReadFileSync configFilePath] else [])
          else []) ++ t
    ∧ file_events t = []
    ∧ (length (commands t) ≤ 2)%nat
    ∧ (length (timers t) ≤ 1)%nat
    ∧ (commands t ≠ [] → valid = true ∧ ∃ m, configured vmName m)
    ∧ (operation ≠ "start" → operation ≠ "mount" →
       VMS (main operation vmName)
       = if valid && found then read_json w configFilePath else VNull).
Proof.
  intros valid found. subst valid found. unfold main, action.
  case_bool_decide as Hop; simpl.
  2:{ eexists [_]. repeat split; simpl; try done; lia. }
  destruct (file_exists w configFilePath) eqn:Hfile; simpl.
  2:{ eexists [_]. repeat split; simpl; try done; lia. }
  destruct (truthy (read_json w configFilePath)); simpl.
  2:{ eexists [_]. repeat split; simpl; try done; lia. }
  destruct (has (read_json w configFilePath) (ostr vmName)); simpl.
  2:{ eexists [_]. repeat split; simpl; try done; lia. }
  destruct (dispatch_shape operation (ostr vmName)
              (load_config (emit (FileExists configFilePath)
                              {| VMS := VNull; trace := [] |})))
    as (t & Ht & Hf & Hc & Hti & Hm & Hv).
  exists t. split; [exact Ht|].
  split; [done|]. split; [done|]. split; [done|]. split; [|done].
  intros Hne. split; [done|].
  destruct (Hm Hne) as (m & Hd & Hn). by exists m.
Qed.

(** X10. No command is run for a VM that is not configured: whenever a
    run executes a command, the operation is one of the four, the
    configuration file exists, and it holds under the given name an object
    with a [name] field. *)
Theorem X10_commands_need_a_configured_record
    (operation : string) (vmName : ostring) :
  commands (trace (main operation vmName)) ≠ [] →
  operation ∈ ["start"; "stop"; "mount"; "unmount"]
  ∧ ∃ m, configured vmName m.
Proof.
  destruct (main_shape operation vmName)
    as (t & -> & _ & _ & _ & Hm & _).
  rewrite commands_app.
  assert (∀ b1 b2 : bool,
            commands (if b1 then FileExists configFilePath
                                 :: (if b2 then [ReadFileSync configFilePath]
                                     else [])
                      else []) = []) as -> by (by intros [] []).
  simpl. intros Hne. destruct (Hm Hne) as [Hop Hcfg].
  split; [|done]. by apply bool_decide_eq_true_1 in Hop.
Qed.

(** X11. A run executes at most two commands and sets at most one timer,
    for every operation, name, configuration and outcome of the
    commands. *)
Theorem X11_at_most_two_commands (operation : string) (vmName : ostring) :
  (length (commands (trace (main operation vmName))) ≤ 2)%nat
  ∧ (length (timers (trace (main operation vmName))) ≤ 1)%nat.
Proof.
  destruct (main_shape operation vmName)
    as (t & -> & _ & Hc & Ht & _ & _).
  rewrite commands_app, timers_app.
  destruct (bool_decide (operation ∈ ["start"; "stop"; "mount"; "unmount"])),
    (file_exists w configFilePath); simpl; lia.
Qed.

Lemma file_events_nil t :
  file_events t = [] → ∀ path, (FileExists path ∉ t) ∧ (ReadFileSync path ∉ t).
Proof.
  induction t as [|e t IH]; intros He path.
  - split; apply not_elem_of_nil.
  - destruct e; try done;
      (destruct (IH He path) as [H1 H2];
       split; intros [Heq|Hin]%elem_of_cons; done).
Qed.

(** X12. The file system is touched only at the start of a run and only
    at the path of the configuration file.  The trace of a run is: nothing
    for an operation that is not one of the four, otherwise one existence
    check, followed by one read exactly when the file exists; and after
    that, events among which there is no existence check and no read, of
    any path.  So the accesses of the whole trace are that check and that
    read, and the file is never read twice. *)
Theorem X12_file_accesses (operation : string) (vmName : ostring) :
  let accesses :=
    if bool_decide (operation ∈ ["start"; "stop"; "mount"; "unmount"])
    then FileExists configFilePath
         :: (if file_exists w configFilePath
             then [ReadFileSync configFilePath] else [])
    else [] in
  (∃ t, trace (main operation vmName) = accesses ++ t
        ∧ ∀ path, (FileExists path ∉ t) ∧ (ReadFileSync path ∉ t))
  ∧ file_events (trace (main operation vmName)) = accesses.
Proof.
  intros accesses. subst accesses.
  destruct (main_shape operation vmName)
    as (t & Ht & Hf & _ & _ & _ & _).
  split.
  - exists t. split; [exact Ht|]. by apply file_events_nil.
  - rewrite Ht, file_events_app, Hf, app_nil_r.
    by destruct (bool_decide (operation ∈ ["start"; "stop"; "mount"; "unmount"])),
      (file_exists w configFilePath).
Qed.

(** X13. [stop] and [unmount] never write to the configuration, nor does
    an operation that is rejected: after the run [VMS] is what was read
    from the file, or [null] when nothing was read.  Only [start] and
    [mount] can fill in defaults. *)
Theorem X13_stop_and_unmount_never_write (operation : string) (vmName : ostring) :
  operation ≠ "start" → operation ≠ "mount" →
  VMS (main operation vmName)
  = if bool_decide (operation ∈ ["start"; "stop"; "mount"; "unmount"])
       && file_exists w configFilePath
    then read_json w configFilePath else VNull.
Proof.
  intros H1 H2.
  destruct (main_shape operation vmName) as (t & _ & _ & _ & _ & _ & Hv).
  by apply Hv.
Qed.

(** *** The configuration after a run *)

Lemma dispatch_start vm s :
  vm_has s vm "name" = true →
  dispatch "start" vm s
  = if isMountableVM (deref s vm) then startAndMountVM vm s
    else startVM vm None s.
Proof. intros Hn. by rewrite dispatch_named. Qed.

Lemma dispatch_stop vm s :
  vm_has s vm "name" = true →
  dispatch "stop" vm s
  = if isMountableVM (deref s vm) then unmountAndStopVM vm s
    else stopVM vm s.
Proof. intros Hn. by rewrite dispatch_named. Qed.

Lemma dispatch_mount vm s :
  vm_has s vm "name" = true →
  dispatch "mount" vm s
  = if isMountableVM (deref s vm) then mountVM vm s
    else console_error (makeErrorMsg "Missing mount config." None) s.
Proof.
  intros Hn. rewrite dispatch_named by done.
  by destruct (isMountableVM (deref s vm)).
Qed.

Lemma dispatch_unmount vm s :
  vm_has s vm "name" = true →
  dispatch "unmount" vm s
  = if isMountableVM (deref s vm) then unmountVM vm None s
    else console_error (makeErrorMsg "Missing mount config." None) s.
Proof.
  intros Hn. rewrite dispatch_named by done.
  by destruct (isMountableVM (deref s vm)).
Qed.

(** The configuration and the Mount command after a run in which the
    Mount step runs. *)
Lemma mount_runs_VMS operation vmName m :
  mount_runs operation vmName m →
  VMS (main operation vmName)
  = set (read_json w configFilePath) (ostr vmName) (VObj (m ∪ spec_defaults m))
  ∧ Exec (spec_mount_command m) ∈ trace (main operation vmName).
Proof.
  intros (Hcfg & Hm & Hcase).
  assert (is_Some (m !! "name")) as Hname by apply Hcfg.
  destruct Hcase as [-> | [-> Hr]].
  - destruct (main_configured "mount" vmName m) as (Hmain & Hd & Hn);
      [set_solver|done|].
    rewrite Hmain, dispatch_mount by done. rewrite Hd, Hm.
    rewrite (mountVM_exact _ _ m Hd Hname). simpl. split; [done|].
    set_solver.
  - destruct (main_configured "start" vmName m) as (Hmain & Hd & Hn);
      [set_solver|done|].
    rewrite Hmain, dispatch_start by done. rewrite Hd, Hm.
    unfold startAndMountVM. rewrite (startVM_exact _ _ _ _ Hd).
    apply exit_code_1_not_failed in Hr. rewrite Hr. simpl.
    rewrite (mountVM_exact _ _ m); [|exact Hd|exact Hname]. simpl.
    split; [done|]. set_solver.
Qed.

(** The configuration after a run that loaded it and in which the Mount
    step does not run. *)
Lemma no_mount_VMS operation vmName :
  operation ∈ ["start"; "stop"; "mount"; "unmount"] →
  file_exists w configFilePath = true →
  (∀ m, ¬ mount_runs operation vmName m) →
  VMS (main operation vmName) = read_json w configFilePath.
Proof.
  intros Hop Hfile Hno.
  destruct (truthy (read_json w configFilePath)) eqn:Ht.
  2:{ unfold main, action. rewrite bool_decide_eq_true_2 by done. simpl.
      rewrite Hfile. simpl. by rewrite Ht. }
  destruct (has (read_json w configFilePath) (ostr vmName)) eqn:Hh.
  2:{ unfold main, action. rewrite bool_decide_eq_true_2 by done. simpl.
      rewrite Hfile. simpl. by rewrite Ht, Hh. }
  rewrite action_loaded by done.
  destruct (vm_has loaded (ostr vmName) "name") eqn:Hn.
  2:{ unfold dispatch. by rewrite Hn. }
  pose proof Hn as Hobj. apply has_name_object in Hobj as (m & Hd & Hname).
  assert (configured vmName m) as Hcfg by done.
  repeat (apply elem_of_cons in Hop as [-> | Hop]).
  - rewrite dispatch_start by done. rewrite Hd.
    destruct (isMountableVM (VObj m)) eqn:Hm.
    + unfold startAndMountVM. rewrite (startVM_exact _ _ _ _ Hd).
      destruct (exit_code_1 _) eqn:Hr; [done|].
      apply exit_code_1_not_failed in Hr.
      destruct (Hno m). split; [done|]. split; [done|]. by right.
    + rewrite (startVM_exact _ _ _ _ Hd). by destruct (exit_code_1 _).
  - rewrite dispatch_stop by done. rewrite Hd.
    destruct (isMountableVM (VObj m)).
    + unfold unmountAndStopVM. rewrite (unmountVM_exact _ _ _ _ Hd). simpl.
      by rewrite (stopVM_exact _ _ m).
    + by rewrite (stopVM_exact _ _ _ Hd).
  - rewrite dispatch_mount by done. rewrite Hd.
    destruct (isMountableVM (VObj m)) eqn:Hm; [|done].
    destruct (Hno m). split; [done|]. split; [done|]. by left.
  - rewrite dispatch_unmount by done. rewrite Hd.
    destruct (isMountableVM (VObj m)); [|done].
    by rewrite (unmountVM_exact _ _ _ _ Hd).
  - by apply elem_of_nil in Hop.
Qed.

(** C7. No operation changes the loaded configuration, except that the
    Mount step writes into the record it mounts the default value of each
    of [ssh_port], [hostname] and [mount_point_remote] that is absent.
    - When the operation is not one of the four or the file is missing,
      nothing is loaded and [VMS] stays [null].
    - When the configuration is loaded and the Mount step does not run,
      [VMS] is the configuration as loaded.
    - When the Mount step runs on the record [m] (operation [mount], or
      [start] with a Start command that did not fail), [VMS] is the loaded
      configuration with [m] replaced by [m] completed with the defaults:
      [ssh_port] is its value in [m] or 22, [hostname] its value or
      [localhost], [mount_point_remote] its value or [/home/<username>/];
      every field present in [m] keeps its value, a field absent from [m]
      is present afterwards only if it is one of the three, [mount_delay]
      is not written, and the other records read as loaded. *)
Theorem C7_config_only_gains_defaults (operation : string) (vmName : ostring) :
  let cfg := read_json w configFilePath in
  let s := main operation vmName in
  (operation ∉ ["start"; "stop"; "mount"; "unmount"]
   ∨ file_exists w configFilePath = false →
   VMS s = VNull)
  ∧ (operation ∈ ["start"; "stop"; "mount"; "unmount"] →
     file_exists w configFilePath = true →
     (∀ m, ¬ mount_runs operation vmName m) →
     VMS s = cfg)
  ∧ (∀ m, mount_runs operation vmName m →
     let m' := m ∪ spec_defaults m in
     VMS s = set cfg (ostr vmName) (VObj m')
     ∧ Exec (spec_mount_command m) ∈ trace s
     ∧ get (VMS s) (ostr vmName) = VObj m'
     ∧ (∀ k, k ≠ ostr vmName → get (VMS s) k = get cfg k)
     ∧ m' !! "ssh_port" = Some (default (VNum 22) (m !! "ssh_port"))
     ∧ m' !! "hostname" = Some (default (VStr "localhost") (m !! "hostname"))
     ∧ m' !! "mount_point_remote"
       = Some (default (VStr ("/home/" +:+ format_s (field m "username") +:+ "/"))
                 (m !! "mount_point_remote"))
     ∧ (∀ f v, m !! f = Some v → m' !! f = Some v)
     ∧ (∀ f, f ∉ ["ssh_port"; "hostname"; "mount_point_remote"] →
             m' !! f = m !! f)
     ∧ m' !! "mount_delay" = m !! "mount_delay").
Proof.
  intros cfg s. subst cfg s. split; [|split].
  - intros [Hop | Hfile]; unfold main, action.
    + by rewrite bool_decide_eq_false_2 by done.
    + case_bool_decide; simpl; [|done]. by rewrite Hfile.
  - apply no_mount_VMS.
  - intros m Hrun m'. subst m'.
    destruct (mount_runs_VMS _ _ _ Hrun) as [Hv Hex].
    assert (has (get (read_json w configFilePath) (ostr vmName)) "name" = true)
      as Hc.
    { destruct Hrun as ((_ & Hget & Hname) & _). rewrite Hget.
      by apply bool_decide_eq_true_2. }
    split; [exact Hv|]. split; [exact Hex|]. rewrite Hv.
    split; [by apply get_set_eq|].
    split; [intros k Hk; by apply get_set_ne|].
    unfold spec_defaults, spec_remote_default.
    split; [|split; [|split; [|split; [|split]]]].
    + rewrite lookup_union, lookup_insert_eq. by destruct (m !! "ssh_port").
    + rewrite lookup_union, lookup_insert_ne, lookup_insert_eq by done.
      by destruct (m !! "hostname").
    + rewrite lookup_union, !lookup_insert_ne, lookup_singleton_eq by done.
      by destruct (m !! "mount_point_remote").
    + intros f v Hf. by apply lookup_union_Some_l.
    + intros f Hf. rewrite lookup_union.
      rewrite !lookup_insert_ne, lookup_singleton_ne by set_solver.
      by destruct (m !! f).
    + rewrite lookup_union.
      rewrite !lookup_insert_ne, lookup_singleton_ne by done.
      by destruct (m !! "mount_delay").
Qed.

(** *** The defaults of [mountVM] *)

Lemma spec_defaults_completed m :
  spec_defaults (m ∪ spec_defaults m) = spec_defaults m.
Proof.
  unfold spec_defaults at 1 3. do 3 f_equal.
  unfold spec_remote_default, field. do 3 f_equal.
  rewrite lookup_union. unfold spec_defaults.
  rewrite !lookup_insert_ne, lookup_singleton_ne by done.
  by destruct (m !! "username").
Qed.

Lemma completed_twice m :
  (m ∪ spec_defaults m) ∪ spec_defaults (m ∪ spec_defaults m)
  = m ∪ spec_defaults m.
Proof.
  rewrite spec_defaults_completed, <- (assoc_L (∪)).
  by rewrite (idemp_L (∪) (spec_defaults m)).
Qed.

Lemma spec_mount_command_completed m :
  spec_mount_command (m ∪ spec_defaults m) = spec_mount_command m.
Proof.
  rewrite <- (mount_command_defaults (m ∪ spec_defaults m)). simpl.
  rewrite completed_twice. apply mount_command_defaults.
Qed.

Lemma spec_mount_delay_completed m :
  spec_mount_delay (m ∪ spec_defaults m) = spec_mount_delay m.
Proof.
  unfold spec_mount_delay. rewrite lookup_union. unfold spec_defaults.
  rewrite !lookup_insert_ne, lookup_singleton_ne by done.
  by destruct (m !! "mount_delay").
Qed.

(** X14. The defaults of [mountVM] are written once: on a record with a
    [name], a second [mountVM] on the same record finds the three fields
    present, leaves the configuration as the first one left it, and runs
    the same command after the same delay. *)
Theorem X14_mount_twice (vm : ref) (s : state) (m : gmap string value) :
  deref s vm = VObj m →
  is_Some (m !! "name") →
  let s1 := mountVM vm s in
  let s2 := mountVM vm s1 in
  VMS s2 = VMS s1
  ∧ commands (trace s2)
    = commands (trace s) ++ [spec_mount_command m; spec_mount_command m]
  ∧ timers (trace s2)
    = timers (trace s)
      ++ [(spec_mount_delay m, 1000); (spec_mount_delay m, 1000)].
Proof.
  intros Hd Hn s1 s2. subst s2 s1.
  rewrite (mountVM_exact _ _ m Hd Hn).
  set (s1 := {| VMS := _; trace := _ |}).
  assert (deref s1 vm = VObj (m ∪ spec_defaults m)) as Hd1.
  { apply get_set_eq. fold (deref s vm). rewrite Hd.
    by apply bool_decide_eq_true_2. }
  assert (is_Some ((m ∪ spec_defaults m) !! "name")) as Hn1.
  { destruct Hn as [x Hx]. exists x. by apply lookup_union_Some_l. }
  rewrite (mountVM_exact _ _ _ Hd1 Hn1). simpl.
  rewrite set_set, completed_twice, spec_mount_command_completed,
    spec_mount_delay_completed.
  split; [done|]. split; quiet; by rewrite <- ?app_assoc.
Qed.

(** *** The path of the configuration file *)

(** X15. The configuration file is [vvm.config.json] in the directory
    named by [HOME] when that variable is set and not empty, whatever
    [USERPROFILE] is; otherwise in the directory named by [USERPROFILE];
    and when that is not set either, the relative path
    [undefined/vvm.config.json].  The path is never empty, so the two
    errors about the file always show it. *)
Theorem X15_config_path :
  (∀ home, HOME w = Some home → home ≠ "" →
     configFilePath = home +:+ "/vvm.config.json")
  ∧ (HOME w = None ∨ HOME w = Some "" →
     (∀ profile, USERPROFILE w = Some profile →
        configFilePath = profile +:+ "/vvm.config.json")
     ∧ (USERPROFILE w = None → configFilePath = "undefined/vvm.config.json"))
  ∧ (∀ error,
       makeErrorMsg error (Some configFilePath)
       = chalk [underline; red] "ERROR" ++ chalk [red] (": " +:+ error)
         ++ chalk [magenta] (" " +:+ configFilePath)).
Proof.
  unfold configFilePath, getUserHome. split; [|split].
  - intros home -> Hne. simpl. by rewrite bool_decide_eq_false_2.
  - intros [Hh | Hh]; rewrite Hh; simpl;
      (split; [intros profile Hp|intros Hp]; by rewrite Hp).
  - intros error. unfold makeErrorMsg, otruthy.
    rewrite bool_decide_eq_false_2; [done|].
    by destruct (ostr _).
Qed.

End Program.

(** ** The claims on the example data *)

(** The example of the specification: [start dev] runs Start for
    [dev-vm], then, after the default delay, Mount with the defaults. *)
Lemma C1_start_then_mount_witness :
  let w := example_world true dev_config (fun _ => exit_ok) in
  let t := trace (main legacy_inspect_s legacy_number_text w "start" (Some "dev")) in
  ∃ t1 t2, console_only t1 ∧ console_only t2
    ∧ t = [FileExists "/home/alice/vvm.config.json";
           ReadFileSync "/home/alice/vvm.config.json"]
          ++ [Exec "vboxmanage startvm dev-vm --type headless"] ++ t1
          ++ [SetTimeout (VNum 10) 1000;
              Exec "sshfs -p 22 alice@localhost:/home/alice/ /mnt/dev"] ++ t2.
Proof.
  intros w t.
  refine (proj2 (C1_start_then_mount legacy_inspect_s legacy_number_text w
                   (Some "dev") dev_record _ _) _).
  - split; [reflexivity|]. split; [reflexivity|]. by eexists.
  - reflexivity.
  - apply exit_code_1_not_failed. reflexivity.
Defined.

(** [stop dev] when every command exits with code 1: Unmount fails and
    Stop is run all the same.  [stop box], on a record with only a
    [name], runs Stop alone. *)
Lemma C3_stop_unmounts_then_stops_witness :
  (let w := example_world true dev_config (fun _ => exit_1) in
   ∃ t1 t2, console_only t1 ∧ console_only t2
     ∧ trace (main legacy_inspect_s legacy_number_text w "stop" (Some "dev"))
       = [FileExists "/home/alice/vvm.config.json";
          ReadFileSync "/home/alice/vvm.config.json"]
         ++ [ConsoleLog (chalk [gray] "Unmounting VM...");
             Exec "umount -f /mnt/dev"] ++ t1
         ++ [Exec "vboxmanage controlvm dev-vm poweroff"] ++ t2)
  ∧ (let w := example_world true box_config (fun _ => exit_ok) in
     ∃ t2, console_only t2
       ∧ trace (main legacy_inspect_s legacy_number_text w "stop" (Some "box"))
         = [FileExists "/home/alice/vvm.config.json";
            ReadFileSync "/home/alice/vvm.config.json"]
           ++ [ConsoleLog (chalk [gray] "Stopping VM...");
               Exec "vboxmanage controlvm box-vm poweroff"] ++ t2).
Proof.
  split; intros w.
  - refine (proj1 (C3_stop_unmounts_then_stops legacy_inspect_s
                     legacy_number_text w (Some "dev") dev_record _) _).
    + split; [reflexivity|]. split; [reflexivity|]. by eexists.
    + reflexivity.
  - refine (proj2 (C3_stop_unmounts_then_stops legacy_inspect_s
                     legacy_number_text w (Some "box") box_record _) _).
    + split; [reflexivity|]. split; [reflexivity|]. by eexists.
    + reflexivity.
Defined.

(** [start dev] when Start exits with code 1: the only command run is
    Start. *)
Lemma C4_failed_start_never_mounts_witness :
  let w := example_world true dev_config (fun _ => exit_1) in
  ∃ t1, console_only t1
    ∧ trace (main legacy_inspect_s legacy_number_text w "start" (Some "dev"))
      = [FileExists "/home/alice/vvm.config.json";
         ReadFileSync "/home/alice/vvm.config.json"]
        ++ [Exec "vboxmanage startvm dev-vm --type headless"] ++ t1
    ∧ commands
        (trace (main legacy_inspect_s legacy_number_text w "start" (Some "dev")))
      = ["vboxmanage startvm dev-vm --type headless"]
    ∧ VMS (main legacy_inspect_s legacy_number_text w "start" (Some "dev"))
      = dev_config.
Proof.
  intros w.
  refine (C4_failed_start_never_mounts legacy_inspect_s legacy_number_text w
            (Some "dev") dev_record _ _ _).
  - split; [reflexivity|]. split; [reflexivity|]. by eexists.
  - reflexivity.
  - apply exit_code_1_failed. reflexivity.
Defined.

(** [restart dev] is rejected at once. *)
Lemma C6_invalid_operation_rejected_witness :
  main legacy_inspect_s legacy_number_text
    (example_world true dev_config (fun _ => exit_ok)) "restart" (Some "dev")
  = {| VMS := VNull;
       trace := [ConsoleError [([underline; red], "ERROR");
                               ([red], ": Invalid operation");
                               ([magenta], " restart")]] |}.
Proof.
  refine (C6_invalid_operation_rejected legacy_inspect_s legacy_number_text
            _ "restart" (Some "dev") _).
  compute_done.
Defined.

(** [mount box] and [unmount box], on a record with only a [name]. *)
Lemma C8_mount_needs_mount_config_witness :
  let w := example_world true box_config (fun _ => exit_ok) in
  let refused :=
    {| VMS := box_config;
       trace := [FileExists "/home/alice/vvm.config.json";
                 ReadFileSync "/home/alice/vvm.config.json";
                 ConsoleError [([underline; red], "ERROR");
                               ([red], ": Missing mount config.")]] |} in
  main legacy_inspect_s legacy_number_text w "mount" (Some "box") = refused
  ∧ main legacy_inspect_s legacy_number_text w "unmount" (Some "box") = refused.
Proof.
  intros w refused.
  assert (configured w (Some "box") box_record) as Hcfg.
  { split; [reflexivity|]. split; [reflexivity|]. by eexists. }
  split.
  - refine (C8_mount_needs_mount_config legacy_inspect_s legacy_number_text w
              "mount" (Some "box") box_record Hcfg _ _);
      [reflexivity|by left].
  - refine (C8_mount_needs_mount_config legacy_inspect_s legacy_number_text w
              "unmount" (Some "box") box_record Hcfg _ _);
      [reflexivity|by right].
Defined.

(** [start dev] with no configuration file, and [mount dev] with a file
    that does not parse. *)
Lemma C9_unreadable_config_stops_witness :
  main legacy_inspect_s legacy_number_text
    (example_world false VNull (fun _ => exit_ok)) "start" (Some "dev")
  = {| VMS := VNull;
       trace := [FileExists "/home/alice/vvm.config.json";
                 ConsoleError [([underline; red], "ERROR");
                               ([red], ": Could not find config file ");
                               ([magenta], " /home/alice/vvm.config.json")]] |}
  ∧ main legacy_inspect_s legacy_number_text
      (example_world true VNull (fun _ => exit_ok)) "mount" (Some "dev")
    = {| VMS := VNull;
         trace := [FileExists "/home/alice/vvm.config.json";
                   ReadFileSync "/home/alice/vvm.config.json";
                   ConsoleError [([underline; red], "ERROR");
                                 ([red], ": Failed to parse config file ");
                                 ([magenta], " /home/alice/vvm.config.json")]] |}.
Proof.
  split.
  - refine (proj1 (C9_unreadable_config_stops legacy_inspect_s
                     legacy_number_text _ "start" (Some "dev") _) _).
    + compute_done.
    + reflexivity.
  - refine (proj2 (C9_unreadable_config_stops legacy_inspect_s
                     legacy_number_text _ "mount" (Some "dev") _) _ _).
    + compute_done.
    + reflexivity.
    + reflexivity.
Defined.

(** [stop] with no name, on the configuration of the example. *)
Lemma C10_omitted_name_is_looked_up_witness :
  main legacy_inspect_s legacy_number_text
    (example_world true dev_config (fun _ => exit_ok)) "stop" None
  = {| VMS := dev_config;
       trace := [FileExists "/home/alice/vvm.config.json";
                 ReadFileSync "/home/alice/vvm.config.json";
                 ConsoleError [([underline; red], "ERROR");
                               ([red], ": No config available for")]] |}.
Proof.
  refine (proj1 (C10_omitted_name_is_looked_up legacy_inspect_s
                   legacy_number_text _ "stop" _) _ _ _).
  - compute_done.
  - reflexivity.
  - reflexivity.
  - reflexivity.
Defined.

(** A command that exits with code 2 counts as a success: the confirmation
    is printed and the continuation runs. *)
Lemma C2_failure_is_exit_code_1_witness :
  let r := {| error := Some {| code := ExitCode 2 |};
              stdout := None; stderr := Some "warning" |} in
  let w := example_world true dev_config (fun _ => r) in
  let s := {| VMS := dev_config; trace := [] |} in
  let next := Some (console_log (chalk [gray] "next")) in
  last (trace (startVM_callback None r s))
  = Some (ConsoleLog (chalk [green] "Yo! VM is up and running."))
  ∧ startVM_callback next r s = call next (startVM_callback None r s).
Proof.
  intros r w s next.
  refine (proj1 (proj2 (proj2 (proj2
            (C2_failure_is_exit_code_1 legacy_inspect_s legacy_number_text w
               "dev" next r s)))) _).
  apply exit_code_1_not_failed. reflexivity.
Defined.

(** [mount dev] leaves the three defaults in the record of the
    configuration. *)
Example dev_config_after_mount :
  VMS (main legacy_inspect_s legacy_number_text
         (example_world true dev_config (fun _ => exit_ok)) "mount" (Some "dev"))
  = VObj {[ "dev" :=
            VObj {[ "name" := VStr "dev-vm";
                    "username" := VStr "alice";
                    "mount_point_host" := VStr "/mnt/dev";
                    "ssh_port" := VNum 22;
                    "hostname" := VStr "localhost";
                    "mount_point_remote" := VStr "/home/alice/" ]} ]}.
Proof. vm_compute. reflexivity. Qed.

(** The default delay, as the milliseconds given to [setTimeout]. *)
Example default_delay_ms :
  timeout_ms (SetTimeout MOUNT_DELAY 1000) = Some 10000.
Proof. reflexivity. Qed.

(** [start lab], on a record that configures every mount parameter: the
    configured values are used, and the configuration is not changed. *)
Example start_lab_configured :
  let s := main legacy_inspect_s legacy_number_text
             (example_world true lab_config (fun _ => exit_ok))
             "start" (Some "lab") in
  commands (trace s)
  = ["vboxmanage startvm lab-vm --type headless";
     "sshfs -p 2222 bob@10.0.0.5:/srv/ /mnt/lab"]
  ∧ omap timeout_ms (trace s) = [3000]
  ∧ VMS s = lab_config.
Proof. repeat split; vm_compute; reflexivity. Qed.

(** ** The further properties on the example data *)

Ltac configured_here :=
  split; [reflexivity|]; split; [reflexivity|]; by eexists.

(** [mount dev] on a record with the mount parameters and no [name], and
    on a record that is a string. *)
Lemma X1_record_without_name_witness :
  let refused cfg :=
    {| VMS := cfg;
       trace := [FileExists "/home/alice/vvm.config.json";
                 ReadFileSync "/home/alice/vvm.config.json";
                 ConsoleError [([underline; red], "ERROR");
                               ([red], ": Incorrect config - VM name missing")]] |} in
  main legacy_inspect_s legacy_number_text
    (example_world true nameless_config (fun _ => exit_ok)) "mount" (Some "dev")
  = refused nameless_config
  ∧ main legacy_inspect_s legacy_number_text
      (example_world true (VObj {[ "dev" := VStr "dev-vm" ]}) (fun _ => exit_ok))
      "start" (Some "dev")
    = refused (VObj {[ "dev" := VStr "dev-vm" ]}).
Proof.
  intros refused. split.
  - refine (X1_record_without_name legacy_inspect_s legacy_number_text _
              "mount" (Some "dev") _ _ _ _ _);
      [compute_done|reflexivity..|].
    intros m [= <-]. reflexivity.
  - refine (X1_record_without_name legacy_inspect_s legacy_number_text _
              "start" (Some "dev") _ _ _ _ _);
      [compute_done|reflexivity..|].
    intros m [=].
Defined.

(** [start prod] on the configuration of the example. *)
Lemma X2_unknown_name_witness :
  main legacy_inspect_s legacy_number_text
    (example_world true dev_config (fun _ => exit_ok)) "start" (Some "prod")
  = {| VMS := dev_config;
       trace := [FileExists "/home/alice/vvm.config.json";
                 ReadFileSync "/home/alice/vvm.config.json";
                 ConsoleError [([underline; red], "ERROR");
                               ([red], ": No config available for");
                               ([magenta], " prod")]] |}.
Proof.
  refine (X2_unknown_name legacy_inspect_s legacy_number_text _
            "start" "prod" _ _ _ _);
    [compute_done|reflexivity..].
Defined.

(** [stop dev] on a configuration file that holds [false]. *)
Lemma X3_falsy_config_is_parse_failure_witness :
  main legacy_inspect_s legacy_number_text
    (example_world true (VBool false) (fun _ => exit_ok)) "stop" (Some "dev")
  = {| VMS := VBool false;
       trace := [FileExists "/home/alice/vvm.config.json";
                 ReadFileSync "/home/alice/vvm.config.json";
                 ConsoleError [([underline; red], "ERROR");
                               ([red], ": Failed to parse config file ");
                               ([magenta], " /home/alice/vvm.config.json")]] |}.
Proof.
  refine (X3_falsy_config_is_parse_failure legacy_inspect_s legacy_number_text
            _ "stop" (Some "dev") _ _ _);
    [compute_done|reflexivity|].
  right; left. reflexivity.
Defined.

(** [stop 0] on the configuration [[{"name": "dev-vm", ...}]]. *)
Lemma X4_array_config_witness :
  let w := example_world true array_config (fun _ => exit_ok) in
  configured w (Some "0") dev_record
  ∧ commands (trace (main legacy_inspect_s legacy_number_text w "stop" (Some "0")))
    = ["umount -f /mnt/dev"; "vboxmanage controlvm dev-vm poweroff"]
  ∧ commands (trace (main legacy_inspect_s legacy_number_text w "stop"
                       (Some "length"))) = [].
Proof.
  intros w.
  destruct (X4_array_config legacy_inspect_s legacy_number_text w
              [VObj dev_record] 0%nat dev_record "stop")
    as (Hc & Hmain & Hlen);
    [compute_done|reflexivity|reflexivity|reflexivity|by eexists|].
  split; [exact Hc|]. split.
  - refine (eq_trans (f_equal (fun st => commands (trace st)) Hmain) _).
    reflexivity.
  - refine (eq_trans (f_equal (fun st => commands (trace st)) Hlen) _).
    reflexivity.
Defined.

(** [start box] when the command exits with code 1. *)
Lemma X5_start_plain_witness :
  main legacy_inspect_s legacy_number_text
    (example_world true box_config (fun _ => exit_1)) "start" (Some "box")
  = {| VMS := box_config;
       trace := [FileExists "/home/alice/vvm.config.json";
                 ReadFileSync "/home/alice/vvm.config.json";
                 Exec "vboxmanage startvm box-vm --type headless";
                 ConsoleLog [([gray], "")];
                 ConsoleLog [([red], "no such machine")];
                 ConsoleError [([underline; red], "ERROR");
                               ([red], ": Failed to start VM")]] |}.
Proof.
  refine (X5_start_plain legacy_inspect_s legacy_number_text _
            (Some "box") box_record _ _);
    [configured_here|reflexivity].
Defined.

(** [start dev] when Start succeeds and Mount exits with code 1: the
    defaults are in the configuration all the same. *)
Lemma X6_start_mountable_witness :
  let outcome cmd :=
    if bool_decide (cmd = "vboxmanage startvm dev-vm --type headless")
    then exit_ok else exit_1 in
  main legacy_inspect_s legacy_number_text
    (example_world true dev_config outcome) "start" (Some "dev")
  = {| VMS := VObj {[ "dev" := VObj (dev_record ∪
                                      {[ "ssh_port" := VNum 22;
                                         "hostname" := VStr "localhost";
                                         "mount_point_remote" := VStr "/home/alice/" ]}) ]};
       trace := [FileExists "/home/alice/vvm.config.json";
                 ReadFileSync "/home/alice/vvm.config.json";
                 Exec "vboxmanage startvm dev-vm --type headless";
                 ConsoleLog [([gray], "")];
                 ConsoleLog [([red], "")];
                 ConsoleLog [([green], "Yo! VM is up and running.")];
                 ConsoleLog [([gray], "Mounting VM...")];
                 SetTimeout (VNum 10) 1000;
                 Exec "sshfs -p 22 alice@localhost:/home/alice/ /mnt/dev";
                 ConsoleLog [([red], "no such machine")];
                 ConsoleError [([underline; red], "ERROR");
                               ([red], ": Failed to mount VM")]] |}.
Proof.
  intros outcome.
  refine (X6_start_mountable legacy_inspect_s legacy_number_text _
            (Some "dev") dev_record _ _);
    [configured_here|reflexivity].
Defined.

(** [stop dev] when both commands exit with code 1, and [stop box]. *)
Lemma X7_stop_in_full_witness :
  main legacy_inspect_s legacy_number_text
    (example_world true dev_config (fun _ => exit_1)) "stop" (Some "dev")
  = {| VMS := dev_config;
       trace := [FileExists "/home/alice/vvm.config.json";
                 ReadFileSync "/home/alice/vvm.config.json";
                 ConsoleLog [([gray], "Unmounting VM...")];
                 Exec "umount -f /mnt/dev";
                 ConsoleLog [([red], "no such machine")];
                 ConsoleError [([underline; red], "ERROR");
                               ([red], ": Failed to unmount VM")];
                 ConsoleLog [([gray], "Stopping VM...")];
                 Exec "vboxmanage controlvm dev-vm poweroff";
                 ConsoleLog [([red], "no such machine")];
                 ConsoleError [([underline; red], "ERROR");
                               ([red], ": Failed to stop VM")]] |}
  ∧ main legacy_inspect_s legacy_number_text
      (example_world true box_config (fun _ => exit_ok)) "stop" (Some "box")
    = {| VMS := box_config;
         trace := [FileExists "/home/alice/vvm.config.json";
                   ReadFileSync "/home/alice/vvm.config.json";
                   ConsoleLog [([gray], "Stopping VM...")];
                   Exec "vboxmanage controlvm box-vm poweroff";
                   ConsoleLog [([gray], "")];
                   ConsoleLog [([green], "Bye!")]] |}.
Proof.
  split.
  - refine (proj1 (X7_stop_in_full legacy_inspect_s legacy_number_text _
                     (Some "dev") dev_record _) _);
      [configured_here|reflexivity].
  - refine (proj2 (X7_stop_in_full legacy_inspect_s legacy_number_text _
                     (Some "box") box_record _) _);
      [configured_here|reflexivity].
Defined.

(** [mount lab], on the record that configures every mount parameter. *)
Lemma X8_mount_in_full_witness :
  main legacy_inspect_s legacy_number_text
    (example_world true lab_config (fun _ => exit_ok)) "mount" (Some "lab")
  = {| VMS := lab_config;
       trace := [FileExists "/home/alice/vvm.config.json";
                 ReadFileSync "/home/alice/vvm.config.json";
                 ConsoleLog [([gray], "Mounting VM...")];
                 SetTimeout (VNum 3) 1000;
                 Exec "sshfs -p 2222 bob@10.0.0.5:/srv/ /mnt/lab";
                 ConsoleLog [([red], "")];
                 ConsoleLog [([gray], "VM mounted at ");
                             ([bold], "/mnt/lab")]] |}.
Proof.
  refine (X8_mount_in_full legacy_inspect_s legacy_number_text _
            (Some "lab") lab_record _ _);
    [configured_here|reflexivity].
Defined.

(** [unmount dev]. *)
Lemma X9_unmount_in_full_witness :
  main legacy_inspect_s legacy_number_text
    (example_world true dev_config (fun _ => exit_ok)) "unmount" (Some "dev")
  = {| VMS := dev_config;
       trace := [FileExists "/home/alice/vvm.config.json";
                 ReadFileSync "/home/alice/vvm.config.json";
                 ConsoleLog [([gray], "Unmounting VM...")];
                 Exec "umount -f /mnt/dev";
                 ConsoleLog [([red], "")];
                 ConsoleLog [([gray], "VM has been unmounted.")]] |}.
Proof.
  refine (X9_unmount_in_full legacy_inspect_s legacy_number_text _
            (Some "dev") dev_record _ _);
    [configured_here|reflexivity].
Defined.

(** [start dev] runs commands, and [dev] is configured. *)
Lemma X10_commands_need_a_configured_record_witness :
  let w := example_world true dev_config (fun _ => exit_ok) in
  "start" ∈ ["start"; "stop"; "mount"; "unmount"]
  ∧ ∃ m, configured w (Some "dev") m.
Proof.
  intros w.
  refine (X10_commands_need_a_configured_record legacy_inspect_s
            legacy_number_text w "start" (Some "dev") _).
  vm_compute. discriminate.
Defined.

(** [stop dev] leaves the configuration of the example as it was read. *)
Lemma X13_stop_and_unmount_never_write_witness :
  VMS (main legacy_inspect_s legacy_number_text
         (example_world true dev_config (fun _ => exit_ok)) "stop" (Some "dev"))
  = dev_config.
Proof.
  refine (X13_stop_and_unmount_never_write legacy_inspect_s legacy_number_text
            _ "stop" (Some "dev") _ _); discriminate.
Defined.

(** Two [mountVM] in a row on the record of the example. *)
Lemma X14_mount_twice_witness :
  let w := example_world true dev_config (fun _ => exit_ok) in
  let s := {| VMS := dev_config; trace := [] |} in
  let s1 := mountVM legacy_inspect_s legacy_number_text w "dev" s in
  let s2 := mountVM legacy_inspect_s legacy_number_text w "dev" s1 in
  VMS s2 = VMS s1
  ∧ commands (trace s2)
    = ["sshfs -p 22 alice@localhost:/home/alice/ /mnt/dev";
       "sshfs -p 22 alice@localhost:/home/alice/ /mnt/dev"]
  ∧ timers (trace s2) = [(VNum 10, 1000); (VNum 10, 1000)].
Proof.
  intros w s.
  refine (X14_mount_twice legacy_inspect_s legacy_number_text w "dev" s
            dev_record _ _);
    [reflexivity|by eexists].
Defined.

(** On the configuration of the example: [restart dev] loads nothing,
    [stop dev] leaves the configuration as loaded, and [mount dev] leaves
    it with the three defaults in the record. *)
Lemma C7_config_only_gains_defaults_witness :
  let w := example_world true dev_config (fun _ => exit_ok) in
  VMS (main legacy_inspect_s legacy_number_text w "restart" (Some "dev")) = VNull
  ∧ VMS (main legacy_inspect_s legacy_number_text w "stop" (Some "dev"))
    = dev_config
  ∧ VMS (main legacy_inspect_s legacy_number_text w "mount" (Some "dev"))
    = VObj {[ "dev" :=
              VObj {[ "name" := VStr "dev-vm";
                      "username" := VStr "alice";
                      "mount_point_host" := VStr "/mnt/dev";
                      "ssh_port" := VNum 22;
                      "hostname" := VStr "localhost";
                      "mount_point_remote" := VStr "/home/alice/" ]} ]}.
Proof.
  intros w. split; [|split].
  - refine (proj1 (C7_config_only_gains_defaults legacy_inspect_s
                     legacy_number_text w "restart" (Some "dev")) _).
    left. compute_done.
  - refine (proj1 (proj2 (C7_config_only_gains_defaults legacy_inspect_s
                            legacy_number_text w "stop" (Some "dev"))) _ _ _);
      [compute_done|reflexivity|].
    intros m (_ & _ & [H | [H _]]); discriminate H.
  - refine (proj1 (proj2 (proj2 (C7_config_only_gains_defaults legacy_inspect_s
                                   legacy_number_text w "mount" (Some "dev")))
                     dev_record _)).
    split; [configured_here|]. split; [reflexivity|]. by left.
Defined.
